(** * The reversal-learning task environment of [src/utils/env.py]

    A shallow embedding of [ReversalLearningTask] (its constructor, [reset]
    and [step]) and of the keyword arguments of the two world factories,
    followed by the properties of the block schedule, the trial timeline
    and the episode stepper.

    Conventions of the embedding.
    - Floating-point scalars are [spec_float]s, each in the canonical form
      of its own format.  The loss accumulates [0 - input[target]]
      ([SFsub], exact whatever the format), the reward negates it
      ([SFopp]), and the records are stored in the float32 tensors that
      [reset] allocates ([binary_round] to binary32).
    - [stimuli_sides] holds integers (the [target] of [NLLLoss] has to be an
      integer tensor), so [(side + 1) / 2] is the truncating division of
      integer tensors, [Z.quot].
    - Tensors and numpy arrays are lists; an index that is out of range
      raises, as it does in torch.
    - The random draws of [reset] are inputs: the i-th value returned by
      [np.random.geometric], which first checks its parameter, and the
      value of [np.random.choice].  The
      stimulus creator is an external collaborator and is a field of the
      configuration; its first argument numbers its calls within one
      [reset], since the creator is itself randomised. *)

From Stdlib Require Import ZArith QArith Floats.SpecFloat.
From stdpp Require Import base list.

(** ** Scalars *)

Definition scalar : Type := spec_float.

(** [0.] *)
Definition fzero : scalar := S754_zero false.
(** [1.] and [-1.] in binary64 *)
Definition fpos_one : scalar := S754_finite false 4503599627370496 (-52).
Definition fneg_one : scalar := S754_finite true 4503599627370496 (-52).
(** binary64 values of [log(0.1)] and [log(0.9)] *)
Definition log_0_1 : scalar := S754_finite true 5184960683398421 (-51).
Definition log_0_9 : scalar := S754_finite true 7592025264898396 (-56).
(** and their binary32 values *)
Definition log_0_1_f32 : scalar := S754_finite true 9657742 (-22).
Definition log_0_9_f32 : scalar := S754_finite true 14141249 (-27).

(** [0 - x]: the subtraction is exact in every format, and gives +0 for a
    zero of either sign. *)
Definition zero_minus (x : scalar) : scalar := SFsub 24 128 fzero x.

(** Conversion to float32, as done by a store into a float32 tensor:
    rounding to nearest, ties to even. *)
Definition to_float32 (x : scalar) : scalar :=
  match x with
  | S754_finite s m e => binary_round 24 128 s m e
  | _ => x
  end.

(** ** Exceptions and results *)

Inductive Field : Set :=
| f_stimuli | f_stimuli_sides | f_stimuli_strengths | f_rewards | f_actions.

Inductive Error : Set :=
| ValueError                        (* np.concatenate of an empty sequence,
                                      np.random.geometric of a bad parameter *)
| IndexError (f : Field) (i : nat)  (* index i is out of range for tensor f *)
| TargetError (t : Z).              (* NLLLoss: target t is out of bounds *)

Inductive result (A : Type) : Type :=
| Ok (x : A)
| Raise (e : Error).
Arguments Ok {A} x.
Arguments Raise {A} e.

#[global] Instance result_ret : MRet result := λ A x, Ok x.
#[global] Instance result_bind : MBind result := λ A B f r,
  match r with
  | Ok x => f x
  | Raise e => Raise e
  end.

(** [t[i]] *)
Definition getitem {A : Type} (f : Field) (t : list A) (i : nat) : result A :=
  match t !! i with
  | Some x => Ok x
  | None => Raise (IndexError f i)
  end.

(** [t[i] = x] *)
Definition setitem {A : Type} (f : Field) (t : list A) (i : nat) (x : A)
  : result (list A) :=
  if decide (i < length t) then Ok (<[i:=x]> t) else Raise (IndexError f i).

(** [np.concatenate]: at least one array is needed *)
Definition np_concatenate {A : Type} (arrays : list (list A)) : result (list A) :=
  match arrays with
  | [] => Raise ValueError
  | _ => Ok (mjoin arrays)
  end.

(** ** Data model *)

Inductive Side : Set := left | right.

#[global] Instance Side_eq_dec : EqDecision Side.
Proof. solve_decision. Defined.

Definition Stimulus : Type := list scalar.
Definition Hidden : Type := list scalar.
(** the two entries of a tensor of shape (1, 1, 2) *)
Definition Action : Type := (scalar * scalar)%type.

Record BlockOutput : Type := {
  sampled_stimuli : list Stimulus;
  sampled_sides : list Z;
  sampled_strengths : list scalar
}.

Record StimulusCreator : Type := {
  create_block_stimuli : nat → nat → list Q → BlockOutput
}.

Record Randomness : Type := {
  geometric : Q → nat → nat;   (* p, number of the draw *)
  choice : Side                (* np.random.choice(['left', 'right']) *)
}.

(** [np.random.geometric(p=p)] raises unless [0 < p <= 1]. *)
Definition geometric_param_ok (p : Q) : bool :=
  negb (Qle_bool p 0) && Qle_bool p 1.

Definition np_random_geometric (rnd : Randomness) (p : Q) (i : nat) : result nat :=
  if geometric_param_ok p then Ok (geometric rnd p i) else Raise ValueError.

Record ReversalLearningTask : Type := {
  stimulus_creator : StimulusCreator;
  num_blocks : nat;
  block_duration_param : Q;
  action_space : nat;
  reward_range : Z * Z;
  side_bias_probs : Side → list Q
}.

Record Episode : Type := {
  num_trials_per_block : list nat;
  stimuli_block_number : list nat;
  trial_num_within_block : list nat;
  stimuli : list Stimulus;
  stimuli_sides : list Z;
  stimuli_strengths : list scalar;
  stimuli_preferred_sides : list scalar;
  rewards : list scalar;
  actions : list Action;
  model_hidden_states : list Hidden;
  current_trial_idx : nat;
  total_num_trials : nat
}.

Record Info : Type := {
  stimulus_side : Z;
  stimulus_strength : scalar
}.

Record StepOutput : Type := {
  stimulus : list Stimulus;   (* one row: reshape((1, -1)) *)
  reward : scalar;
  info : option Info;
  done : bool
}.

(** ** Construction *)

Definition init (creator : StimulusCreator)
    (num_blocks : option nat) (block_duration_param : option Q)
    (left_bias_probs right_bias_probs : option (list Q)) : ReversalLearningTask :=
  let right_bias_probs :=
    match right_bias_probs with
    | None => [0.8; 0.2]%Q
    | Some p => p
    end in
  let left_bias_probs :=
    match left_bias_probs with
    | None => [0.2; 0.8]%Q
    | Some p => p
    end in
  {| stimulus_creator := creator;
     num_blocks := default 10 num_blocks;
     block_duration_param := default (1 # 60)%Q block_duration_param;
     action_space := 2;
     reward_range := (0, 1)%Z;
     side_bias_probs := λ side,
       match side with
       | left => left_bias_probs
       | right => right_bias_probs
       end |}.

(** The keyword arguments of the two factories, passed to the constructor. *)
Definition training_choice_world (creator : StimulusCreator) : ReversalLearningTask :=
  init creator (Some 10) None (Some [0.5; 0.5]%Q) (Some [0.5; 0.5]%Q).

Definition create_training_choice_world (creator : StimulusCreator)
    (batch_size : nat) : list ReversalLearningTask :=
  replicate batch_size (training_choice_world creator).

(** [make_env(kwargs)()] of [create_biased_choice_worlds]; the vectorised
    wrapper around it is external. *)
Definition biased_choice_world (creator : StimulusCreator) : ReversalLearningTask :=
  init creator (Some 100) None (Some [0.8; 0.2]%Q) (Some [0.2; 0.8]%Q).

(** ** reset *)

(** One iteration of the truncation loop, at index [i]. *)
Definition truncate_at (ntpb : list nat) (i : nat) : list nat :=
  match ntpb !! i with
  | None => ntpb
  | Some num_trials =>
      let ntpb := if decide (num_trials < 20) then <[i:=20]> ntpb else ntpb in
      if decide (100 < num_trials) then <[i:=100]> ntpb else ntpb
  end.

Definition truncate (ntpb : list nat) : list nat :=
  foldl truncate_at ntpb (seq 0 (length ntpb)).

Definition toggle (side : Side) : Side :=
  if decide (side = left) then right else left.

Definition side_sign (side : Side) : scalar :=
  if decide (side = left) then fneg_one else fpos_one.

Record Blocks : Type := {
  blocks_stimuli : list (list Stimulus);
  blocks_stimuli_sides : list (list Z);
  blocks_stimuli_strengths : list (list scalar);
  blocks_preferred_sides : list (list scalar)
}.

Definition append_block (acc : Blocks) (output : BlockOutput)
    (preferred : list scalar) : Blocks :=
  {| blocks_stimuli := blocks_stimuli acc ++ [sampled_stimuli output];
     blocks_stimuli_sides := blocks_stimuli_sides acc ++ [sampled_sides output];
     blocks_stimuli_strengths :=
       blocks_stimuli_strengths acc ++ [sampled_strengths output];
     blocks_preferred_sides := blocks_preferred_sides acc ++ [preferred] |}.

(** The loop over the blocks: [call] numbers the calls of the creator,
    [curr_preferred_side] and the four lists are the loop's variables. *)
Fixpoint build_blocks (task : ReversalLearningTask) (call : nat)
    (curr_preferred_side : Side) (acc : Blocks) (ntpb : list nat) : Blocks :=
  match ntpb with
  | [] => acc
  | block_num_trials :: ntpb =>
      let output :=
        create_block_stimuli (stimulus_creator task) call block_num_trials
          (side_bias_probs task curr_preferred_side) in
      let preferred := replicate block_num_trials (side_sign curr_preferred_side) in
      build_blocks task (S call) (toggle curr_preferred_side)
        (append_block acc output preferred) ntpb
  end.

Definition reset (task : ReversalLearningTask) (rnd : Randomness)
  : result (Episode * StepOutput) :=
  draws ←
    mapM (np_random_geometric rnd (block_duration_param task))
      (seq 0 (num_blocks task));
  let ntpb := truncate draws in
  block_number ←
    np_concatenate (zip_with (λ nt i, replicate nt i) ntpb (seq 1 (length ntpb)));
  trial_num ← np_concatenate ((λ nt, seq 1 nt) <$> ntpb);
  let total := sum_list ntpb in
  let blocks := build_blocks task 0 (choice rnd) (Build_Blocks [] [] [] []) ntpb in
  all_stimuli ← np_concatenate (blocks_stimuli blocks);
  all_sides ← np_concatenate (blocks_stimuli_sides blocks);
  all_preferred ← np_concatenate (blocks_preferred_sides blocks);
  all_strengths ← np_concatenate (blocks_stimuli_strengths blocks);
  let current := 0 in
  first ← getitem f_stimuli all_stimuli current;
  mret ({| num_trials_per_block := ntpb;
           stimuli_block_number := block_number;
           trial_num_within_block := trial_num;
           stimuli := all_stimuli;
           stimuli_sides := all_sides;
           stimuli_strengths := all_strengths;
           stimuli_preferred_sides := all_preferred;
           rewards := replicate total fzero;
           actions := replicate total (fzero, fzero);
           model_hidden_states := [];
           current_trial_idx := current;
           total_num_trials := total |},
        {| stimulus := [first];
           reward := fzero;
           info := None;
           done := bool_decide (current = total) |}).

(** ** step *)

(** Computations on the episode that may raise; the episode keeps the
    writes made before the exception. *)
Definition M (A : Type) : Type := Episode → Episode * result A.

#[global] Instance M_ret : MRet M := λ A x ep, (ep, Ok x).
#[global] Instance M_bind : MBind M := λ A B f m ep,
  match m ep with
  | (ep', Ok x) => f x ep'
  | (ep', Raise e) => (ep', Raise e)
  end.

Definition gets {A : Type} (f : Episode → A) : M A := λ ep, (ep, Ok (f ep)).
Definition modify (f : Episode → Episode) : M unit := λ ep, (f ep, Ok tt).
Definition lift {A : Type} (r : result A) : M A := λ ep, (ep, r).

Definition set_rewards (v : list scalar) (ep : Episode) : Episode :=
  {| num_trials_per_block := num_trials_per_block ep;
     stimuli_block_number := stimuli_block_number ep;
     trial_num_within_block := trial_num_within_block ep;
     stimuli := stimuli ep;
     stimuli_sides := stimuli_sides ep;
     stimuli_strengths := stimuli_strengths ep;
     stimuli_preferred_sides := stimuli_preferred_sides ep;
     rewards := v;
     actions := actions ep;
     model_hidden_states := model_hidden_states ep;
     current_trial_idx := current_trial_idx ep;
     total_num_trials := total_num_trials ep |}.

Definition set_actions (v : list Action) (ep : Episode) : Episode :=
  {| num_trials_per_block := num_trials_per_block ep;
     stimuli_block_number := stimuli_block_number ep;
     trial_num_within_block := trial_num_within_block ep;
     stimuli := stimuli ep;
     stimuli_sides := stimuli_sides ep;
     stimuli_strengths := stimuli_strengths ep;
     stimuli_preferred_sides := stimuli_preferred_sides ep;
     rewards := rewards ep;
     actions := v;
     model_hidden_states := model_hidden_states ep;
     current_trial_idx := current_trial_idx ep;
     total_num_trials := total_num_trials ep |}.

Definition set_model_hidden_states (v : list Hidden) (ep : Episode) : Episode :=
  {| num_trials_per_block := num_trials_per_block ep;
     stimuli_block_number := stimuli_block_number ep;
     trial_num_within_block := trial_num_within_block ep;
     stimuli := stimuli ep;
     stimuli_sides := stimuli_sides ep;
     stimuli_strengths := stimuli_strengths ep;
     stimuli_preferred_sides := stimuli_preferred_sides ep;
     rewards := rewards ep;
     actions := actions ep;
     model_hidden_states := v;
     current_trial_idx := current_trial_idx ep;
     total_num_trials := total_num_trials ep |}.

Definition set_current_trial_idx (v : nat) (ep : Episode) : Episode :=
  {| num_trials_per_block := num_trials_per_block ep;
     stimuli_block_number := stimuli_block_number ep;
     trial_num_within_block := trial_num_within_block ep;
     stimuli := stimuli ep;
     stimuli_sides := stimuli_sides ep;
     stimuli_strengths := stimuli_strengths ep;
     stimuli_preferred_sides := stimuli_preferred_sides ep;
     rewards := rewards ep;
     actions := actions ep;
     model_hidden_states := model_hidden_states ep;
     current_trial_idx := v;
     total_num_trials := total_num_trials ep |}.

(** [(side + 1) / 2] *)
Definition encode_target (side : Z) : Z := ((side + 1) ÷ 2)%Z.

(** The entry of a two-class input at a class index. *)
Definition component (input : Action) (t : Z) : scalar :=
  if decide (t = 0%Z) then input.1 else input.2.

(** [NLLLoss()] on a batch of one sample with two classes: the mean over
    the batch of [-input[target]], accumulated from zero (the division by
    the batch size 1 changes nothing).  The default [ignore_index], -100,
    leaves no sample to average over. *)
Definition NLLLoss (target : Z) (input : Action) : result scalar :=
  if decide (target = (-100)%Z) then Ok S754_nan
  else if decide (0 ≤ target < 2)%Z then Ok (zero_minus (component input target))
  else Raise (TargetError target).

(** An action distribution as stored in the float32 tensor [actions]. *)
Definition store_action (a : Action) : Action := (to_float32 a.1, to_float32 a.2).

Definition step (model_softmax_output : Action) (model_hidden : Hidden)
  : M StepOutput :=
  idx ← gets current_trial_idx;
  sides ← gets stimuli_sides;
  side ← lift (getitem f_stimuli_sides sides idx);
  loss ← lift (NLLLoss (encode_target side) model_softmax_output);
  let reward := SFopp loss in
  (* store record of reward *)
  rs ← gets rewards;
  rs ← lift (setitem f_rewards rs idx (to_float32 reward));
  modify (set_rewards rs);;
  (* store record of action *)
  acts ← gets actions;
  acts ← lift (setitem f_actions acts idx (store_action model_softmax_output));
  modify (set_actions acts);;
  (* store record of model's hidden state *)
  modify (λ ep, set_model_hidden_states (model_hidden_states ep ++ [model_hidden]) ep);;
  (* increment trial counter *)
  modify (λ ep, set_current_trial_idx (current_trial_idx ep + 1) ep);;
  idx ← gets current_trial_idx;
  all_stimuli ← gets stimuli;
  next_stimulus ← lift (getitem f_stimuli all_stimuli idx);
  sides ← gets stimuli_sides;
  next_side ← lift (getitem f_stimuli_sides sides idx);
  strengths ← gets stimuli_strengths;
  next_strength ← lift (getitem f_stimuli_strengths strengths idx);
  total ← gets total_num_trials;
  mret {| stimulus := [next_stimulus];
          reward := reward;
          info := Some {| stimulus_side := next_side;
                          stimulus_strength := next_strength |};
          done := bool_decide (idx + 1 = total) |}.

(** [k] calls of [step] in sequence, one per input: the episode after the
    last call, and what each call returned or raised. *)
Fixpoint steps (inputs : list (Action * Hidden)) (ep : Episode)
  : Episode * list (result StepOutput) :=
  match inputs with
  | [] => (ep, [])
  | (a, h) :: inputs =>
      let (ep1, r) := step a h ep in
      let (ep2, rs) := steps inputs ep1 in
      (ep2, r :: rs)
  end.

(** [close]: nothing to release. *)
Definition close : M unit := mret tt.

(** The episode once a call of [step] has stored its records and advanced
    the cursor. *)
Definition recorded (a : Action) (h : Hidden) (r : scalar) (ep : Episode) : Episode :=
  let idx := current_trial_idx ep in
  set_current_trial_idx (idx + 1)
    (set_model_hidden_states (model_hidden_states ep ++ [h])
       (set_actions (<[idx:=store_action a]> (actions ep))
          (set_rewards (<[idx:=to_float32 r]> (rewards ep)) ep))).

(** The reward for the entry [x] of the action distribution that the
    target picks: [-(0 - x)]. *)
Definition reward_of (x : scalar) : scalar := SFopp (zero_minus x).

(** ** Well-formed episodes and creators *)

(** Every per-trial array has one entry per trial. *)
Record wf (ep : Episode) : Prop := {
  wf_stimuli : length (stimuli ep) = total_num_trials ep;
  wf_sides : length (stimuli_sides ep) = total_num_trials ep;
  wf_strengths : length (stimuli_strengths ep) = total_num_trials ep;
  wf_rewards : length (rewards ep) = total_num_trials ep;
  wf_actions : length (actions ep) = total_num_trials ep
}.

(** Two episodes with the same schedule and the same trial timeline. *)
Definition same_timeline (ep ep' : Episode) : Prop :=
  num_trials_per_block ep' = num_trials_per_block ep
  ∧ stimuli_block_number ep' = stimuli_block_number ep
  ∧ trial_num_within_block ep' = trial_num_within_block ep
  ∧ stimuli ep' = stimuli ep
  ∧ stimuli_sides ep' = stimuli_sides ep
  ∧ stimuli_strengths ep' = stimuli_strengths ep
  ∧ stimuli_preferred_sides ep' = stimuli_preferred_sides ep
  ∧ total_num_trials ep' = total_num_trials ep.

(** Sides are the signed encodings -1 (left) and +1 (right). *)
Definition signed (side : Z) : Prop := side = (-1)%Z ∨ side = 1%Z.

(** The creator answers a request for a block of [n] trials with three
    sequences of length [n]. *)
Definition creator_lengths (creator : StimulusCreator) : Prop :=
  ∀ call n probs,
    let output := create_block_stimuli creator call n probs in
    length (sampled_stimuli output) = n ∧
    length (sampled_sides output) = n ∧
    length (sampled_strengths output) = n.

(** The stimuli that the creator returns all have one shape, so that the
    blocks can be concatenated. *)
Definition creator_uniform (creator : StimulusCreator) : Prop :=
  ∃ d, ∀ call n probs row,
    row ∈ sampled_stimuli (create_block_stimuli creator call n probs) →
    length row = d.

(** First trial of block [b] in the flat arrays. *)
Definition block_start (ntpb : list nat) (b : nat) : nat := sum_list (take b ntpb).

(** What the truncation loop leaves in a slot that held [n]. *)
Definition clamp (n : nat) : nat :=
  if decide (n < 20) then 20 else if decide (100 < n) then 100 else n.

(** Preferred side of block [b] when the first block prefers [first]. *)
Definition block_side (first : Side) (b : nat) : Side := Nat.iter b toggle first.

(** The creator's answer for block [b], when the loop over the blocks
    starts at call number [call] with preferred side [first]. *)
Definition block_output (task : ReversalLearningTask) (call : nat) (first : Side)
    (b nt : nat) : BlockOutput :=
  create_block_stimuli (stimulus_creator task) (call + b) nt
    (side_bias_probs task (block_side first b)).

(** A mocked setting: one block whose geometric draw is 20, and a creator
    that returns identical trials with side +1 and strength 1.0. *)
Definition mock_creator : StimulusCreator :=
  {| create_block_stimuli := λ _ n _,
       {| sampled_stimuli := replicate n [fpos_one; fzero];
          sampled_sides := replicate n 1%Z;
          sampled_strengths := replicate n fpos_one |} |}.
Definition mock_task : ReversalLearningTask := init mock_creator (Some 1) None None None.
Definition mock_rnd : Randomness := {| geometric := λ _ _, 20; choice := left |}.
Definition mock_episode : Episode :=
  match reset mock_task mock_rnd with
  | Ok (ep, _) => ep
  | Raise _ =>
      Build_Episode [] [] [] [] [] [] [] [] [] [] 0 0
  end.
Definition mock_first : StepOutput :=
  {| stimulus := [[fpos_one; fzero]]; reward := fzero; info := None; done := false |}.

(** The same setting with every trial on the left. *)
Definition mock_creator_left : StimulusCreator :=
  {| create_block_stimuli := λ _ n _,
       {| sampled_stimuli := replicate n [fzero; fpos_one];
          sampled_sides := replicate n (-1)%Z;
          sampled_strengths := replicate n fpos_one |} |}.
Definition mock_left_episode : Episode :=
  match reset (init mock_creator_left (Some 1) None None None) mock_rnd with
  | Ok (ep, _) => ep
  | Raise _ =>
      Build_Episode [] [] [] [] [] [] [] [] [] [] 0 0
  end.

(** Three blocks whose draws are 5, 60 and 300, starting on the right. *)
Definition three_blocks_task : ReversalLearningTask :=
  init mock_creator (Some 3) None None None.
Definition three_blocks_rnd : Randomness :=
  {| geometric := λ _ i, nth i [5; 60; 300] 1; choice := right |}.
Definition three_blocks_episode : Episode :=
  match reset three_blocks_task three_blocks_rnd with
  | Ok (ep, _) => ep
  | Raise _ =>
      Build_Episode [] [] [] [] [] [] [] [] [] [] 0 0
  end.

(** * Properties *)

(** ** The truncation loop *)

Lemma truncate_at_middle (pre post : list nat) (x : nat) :
  truncate_at (pre ++ x :: post) (length pre) = pre ++ clamp x :: post.
Proof.
  unfold truncate_at, clamp.
  rewrite list_lookup_middle by done.
  destruct (decide (x < 20)) as [Hlo|Hlo]; destruct (decide (100 < x)) as [Hhi|Hhi];
    try lia; rewrite ?insert_app_r_alt, ?Nat.sub_diag by lia; done.
Qed.

Lemma truncate_loop (l pre : list nat) :
  foldl truncate_at (pre ++ l) (seq (length pre) (length l)) = pre ++ (clamp <$> l).
Proof.
  revert pre. induction l as [|x l IH]; intros pre; simpl.
  - done.
  - rewrite truncate_at_middle.
    replace (pre ++ clamp x :: l) with ((pre ++ [clamp x]) ++ l)
      by (by rewrite <- app_assoc).
    replace (S (length pre)) with (length (pre ++ [clamp x]))
      by (rewrite length_app; simpl; lia).
    rewrite IH. by rewrite <- app_assoc.
Qed.

Lemma truncate_clamp (l : list nat) : truncate l = clamp <$> l.
Proof. apply (truncate_loop l []). Qed.

Lemma clamp_range (n : nat) : 20 ≤ clamp n ≤ 100.
Proof. unfold clamp. repeat case_decide; lia. Qed.

Lemma clamp_cases (n : nat) :
  (n < 20 → clamp n = 20) ∧ (100 < n → clamp n = 100) ∧ (20 ≤ n ≤ 100 → clamp n = n).
Proof. unfold clamp. repeat case_decide; lia. Qed.

(** ** The loop over the blocks *)

Lemma block_side_S (first : Side) (b : nat) :
  block_side first (S b) = toggle (block_side first b).
Proof. done. Qed.

Lemma block_side_toggle (first : Side) (b : nat) :
  block_side (toggle first) b = block_side first (S b).
Proof. unfold block_side. by rewrite Nat.iter_succ_r. Qed.

Lemma side_sign_toggle (s : Side) : side_sign (toggle s) = SFopp (side_sign s).
Proof. by destruct s. Qed.

Lemma toggle_neq (s : Side) : toggle s ≠ s.
Proof. by destruct s. Qed.

Section build_blocks.
Variable task : ReversalLearningTask.

Lemma build_blocks_spec (ntpb : list nat) (call : nat) (first : Side) (acc : Blocks) :
  let blocks := build_blocks task call first acc ntpb in
  blocks_stimuli blocks
    = blocks_stimuli acc
      ++ imap (λ b nt, sampled_stimuli (block_output task call first b nt)) ntpb
  ∧ blocks_stimuli_sides blocks
    = blocks_stimuli_sides acc
      ++ imap (λ b nt, sampled_sides (block_output task call first b nt)) ntpb
  ∧ blocks_stimuli_strengths blocks
    = blocks_stimuli_strengths acc
      ++ imap (λ b nt, sampled_strengths (block_output task call first b nt)) ntpb
  ∧ blocks_preferred_sides blocks
    = blocks_preferred_sides acc
      ++ imap (λ b nt, replicate nt (side_sign (block_side first b))) ntpb.
Proof.
  revert call first acc.
  induction ntpb as [|nt ntpb IH]; intros call first acc; simpl.
  - by rewrite !app_nil_r.
  - destruct (IH (S call) (toggle first)
      (append_block acc
         (create_block_stimuli (stimulus_creator task) call nt
            (side_bias_probs task first))
         (replicate nt (side_sign first)))) as (E1 & E2 & E3 & E4).
    rewrite E1, E2, E3, E4. simpl. rewrite <- !app_assoc. simpl.
    repeat split; f_equal; f_equal; try (apply imap_ext; intros b x _; simpl);
      unfold block_output;
      rewrite ?block_side_toggle, ?Nat.add_succ_r, ?Nat.add_0_r; done.
Qed.
End build_blocks.

(** ** What [reset] builds *)

Lemma zip_with_seq_imap {A B : Type} (f : A → nat → B) (l : list A) (k : nat) :
  zip_with f l (seq k (length l)) = imap (λ b x, f x (k + b)) l.
Proof.
  revert k. induction l as [|x l IH]; intros k; simpl; [done|].
  rewrite Nat.add_0_r. f_equal. rewrite IH. apply imap_ext.
  intros b y _. simpl. f_equal. lia.
Qed.

Lemma np_concatenate_Ok {A : Type} (arrays : list (list A)) (t : list A) :
  np_concatenate arrays = Ok t ↔ arrays ≠ [] ∧ t = mjoin arrays.
Proof.
  destruct arrays as [|a arrays]; simpl; split.
  - discriminate.
  - by intros [? _].
  - intros [= <-]. done.
  - intros [_ ->]. done.
Qed.

Lemma bind_Ok {A B : Type} (f : A → result B) (x : A) : (Ok x ≫= f) = f x.
Proof. done. Qed.

Lemma bind_Raise {A B : Type} (f : A → result B) (e : Error) :
  (Raise e ≫= f) = Raise e.
Proof. done. Qed.

(** The draws: one per block when the parameter is accepted. *)
Lemma geometric_draws (rnd : Randomness) (p : Q) (l : list nat) :
  mapM (np_random_geometric rnd p) l
  = if geometric_param_ok p then Ok (geometric rnd p <$> l)
    else match l with
         | [] => Ok []
         | _ => Raise ValueError
         end.
Proof.
  unfold np_random_geometric. destruct (geometric_param_ok p).
  - induction l as [|i l IH]; [done|]. simpl. by rewrite IH.
  - by destruct l.
Qed.

Lemma reset_param_ok (task : ReversalLearningTask) (rnd : Randomness)
    (ep : Episode) (o : StepOutput) :
  reset task rnd = Ok (ep, o) →
  geometric_param_ok (block_duration_param task) = true.
Proof.
  unfold reset. rewrite geometric_draws.
  destruct (geometric_param_ok (block_duration_param task)); [done|].
  by destruct (num_blocks task).
Qed.

(** The block lengths that [reset] computes from the draws. *)
Lemma reset_Ok (task : ReversalLearningTask) (rnd : Randomness)
    (ep : Episode) (o : StepOutput) :
  reset task rnd = Ok (ep, o) →
  let ntpb :=
    clamp <$> (geometric rnd (block_duration_param task) <$> seq 0 (num_blocks task)) in
  0 < num_blocks task
  ∧ num_trials_per_block ep = ntpb
  ∧ stimuli_block_number ep = mjoin (imap (λ b nt, replicate nt (S b)) ntpb)
  ∧ trial_num_within_block ep = mjoin ((λ nt, seq 1 nt) <$> ntpb)
  ∧ total_num_trials ep = sum_list ntpb
  ∧ stimuli ep
    = mjoin (imap (λ b nt, sampled_stimuli (block_output task 0 (choice rnd) b nt)) ntpb)
  ∧ stimuli_sides ep
    = mjoin (imap (λ b nt, sampled_sides (block_output task 0 (choice rnd) b nt)) ntpb)
  ∧ stimuli_strengths ep
    = mjoin (imap (λ b nt, sampled_strengths (block_output task 0 (choice rnd) b nt)) ntpb)
  ∧ stimuli_preferred_sides ep
    = mjoin (imap (λ b nt, replicate nt (side_sign (block_side (choice rnd) b))) ntpb)
  ∧ rewards ep = replicate (total_num_trials ep) fzero
  ∧ actions ep = replicate (total_num_trials ep) (fzero, fzero)
  ∧ model_hidden_states ep = []
  ∧ current_trial_idx ep = 0
  ∧ ∃ first,
      stimuli ep !! 0 = Some first
      ∧ o = {| stimulus := [first]; reward := fzero; info := None;
               done := bool_decide (0 = total_num_trials ep) |}.
Proof.
  intros H ntpb. pose proof (reset_param_ok task rnd ep o H) as Hp.
  unfold reset in H. rewrite geometric_draws, Hp, bind_Ok in H.
  rewrite truncate_clamp in H.
  fold ntpb in H.
  destruct (build_blocks_spec task ntpb 0 (choice rnd) (Build_Blocks [] [] [] []))
    as (E1 & E2 & E3 & E4).
  simpl in E1, E2, E3, E4. cbv zeta in H. rewrite E1, E2, E3, E4 in H.
  rewrite zip_with_seq_imap in H. clear E1 E2 E3 E4.
  assert (Hnb : 0 < num_blocks task).
  { unfold ntpb in H. destruct (num_blocks task); [|lia]. discriminate H. }
  split; [done|].
  unfold mbind, result_bind in H.
  repeat match type of H with
         | match ?x with _ => _ end = _ =>
             let E := fresh "E" in destruct x eqn:E; [|discriminate H]
         end.
  injection H as <- <-. simpl.
  repeat match goal with
         | E : np_concatenate _ = Ok _ |- _ =>
             apply np_concatenate_Ok in E; destruct E as [_ ->]
         end.
  unfold getitem in *.
  match goal with
  | E : match ?t !! 0 with _ => _ end = Ok _ |- _ =>
      destruct (t !! 0) as [first|] eqn:E0; [|discriminate E];
      injection E as ->
  end.
  repeat split; try done. eauto.
Qed.

(** ** Flat arrays made of one segment per block *)

Section segments.
Context {A : Type} (f : nat → nat → list A) (ntpb : list nat).
Hypothesis f_length : ∀ b nt, ntpb !! b = Some nt → length (f b nt) = nt.

Lemma imap_lengths : length <$> imap f ntpb = ntpb.
Proof.
  apply list_eq. intros b.
  rewrite list_lookup_fmap, list_lookup_imap.
  destruct (ntpb !! b) as [nt|] eqn:E; simpl; [|done].
  by rewrite (f_length b nt E).
Qed.

Lemma segments_length : length (mjoin (imap f ntpb)) = sum_list ntpb.
Proof. by rewrite length_join, imap_lengths. Qed.

Lemma segments_start (b : nat) :
  sum_list (length <$> take b (imap f ntpb)) = block_start ntpb b.
Proof. unfold block_start. by rewrite fmap_take, imap_lengths. Qed.

Lemma segments_lookup (b nt j : nat) :
  ntpb !! b = Some nt → j < nt →
  mjoin (imap f ntpb) !! (block_start ntpb b + j) = f b nt !! j.
Proof.
  intros Hb Hj.
  destruct (lookup_lt_is_Some_2 (f b nt) j) as [x Hx].
  { by rewrite (f_length b nt Hb). }
  rewrite Hx. apply join_lookup_Some.
  exists b, (f b nt), j. repeat split; [|done|by rewrite segments_start].
  by rewrite list_lookup_imap, Hb.
Qed.

Lemma segments_lookup_inv (i : nat) (x : A) :
  mjoin (imap f ntpb) !! i = Some x →
  ∃ b nt j, ntpb !! b = Some nt ∧ j < nt ∧ i = block_start ntpb b + j
            ∧ f b nt !! j = Some x.
Proof.
  intros (b & l & j & Hb & Hj & ->)%join_lookup_Some.
  rewrite list_lookup_imap in Hb.
  destruct (ntpb !! b) as [nt|] eqn:E; simpl in Hb; [|done].
  injection Hb as <-. exists b, nt, j.
  split; [done|]. split; [|split; [|done]].
  - rewrite <- (f_length b nt E). by eapply lookup_lt_Some.
  - by rewrite segments_start.
Qed.
End segments.

Lemma block_start_S (ntpb : list nat) (b nt : nat) :
  ntpb !! b = Some nt → block_start ntpb (S b) = block_start ntpb b + nt.
Proof.
  intros Hb. unfold block_start.
  rewrite (take_S_r _ _ _ Hb), sum_list_with_app. simpl. lia.
Qed.

Lemma block_start_mono (ntpb : list nat) (b b' : nat) :
  b ≤ b' → block_start ntpb b ≤ block_start ntpb b'.
Proof.
  intros Hle. unfold block_start.
  replace b' with (b + (b' - b)) by lia.
  rewrite <- take_take_drop, sum_list_with_app. lia.
Qed.

(** Segments do not overlap: a position lies in one block only. *)
Lemma block_start_before (ntpb : list nat) (b b' nt : nat) :
  ntpb !! b = Some nt → b < b' → block_start ntpb b + nt ≤ block_start ntpb b'.
Proof.
  intros Hb Hlt. rewrite <- (block_start_S _ _ _ Hb).
  apply block_start_mono. lia.
Qed.

Lemma block_unique (ntpb : list nat) (b b' nt nt' j j' : nat) :
  ntpb !! b = Some nt → ntpb !! b' = Some nt' → j < nt → j' < nt' →
  block_start ntpb b + j ≤ block_start ntpb b' + j' → b ≤ b'.
Proof.
  intros Hb Hb' Hj Hj' Hle.
  destruct (decide (b ≤ b')) as [|Hgt]; [done|].
  pose proof (block_start_before ntpb b' b nt' Hb' ltac:(lia)). lia.
Qed.

Ltac reset_inv H :=
  apply reset_Ok in H; cbv zeta in H;
  destruct H as (Hnb & Hntpb & Hsbn & Htnwb & Htot & Hstim & Hsides & Hstr
                 & Hpref & Hrew & Hact & Hhid & Hcur & first & Hfirst & Ho).

Lemma drawn_lengths_lookup (task : ReversalLearningTask) (rnd : Randomness) (i : nat) :
  i < num_blocks task →
  (clamp <$> (geometric rnd (block_duration_param task) <$> seq 0 (num_blocks task)))
    !! i = Some (clamp (geometric rnd (block_duration_param task) i)).
Proof.
  intros Hi. rewrite !list_lookup_fmap, lookup_seq_lt by done. done.
Qed.

Lemma drawn_lengths_length (task : ReversalLearningTask) (rnd : Randomness) :
  length (clamp <$> (geometric rnd (block_duration_param task)
                       <$> seq 0 (num_blocks task))) = num_blocks task.
Proof. by rewrite !length_fmap, length_seq. Qed.

Lemma reset_block_range (task : ReversalLearningTask) (rnd : Randomness)
    (ep : Episode) (o : StepOutput) (b nt : nat) :
  reset task rnd = Ok (ep, o) →
  num_trials_per_block ep !! b = Some nt → b < num_blocks task ∧ 20 ≤ nt ≤ 100.
Proof.
  intros H Hb. reset_inv H. rewrite Hntpb in Hb.
  assert (b < num_blocks task) as Hlt.
  { apply lookup_lt_Some in Hb. by rewrite drawn_lengths_length in Hb. }
  rewrite drawn_lengths_lookup in Hb by done. injection Hb as <-.
  split; [done|apply clamp_range].
Qed.

(** ** The block schedule *)

(** C3: after [reset], [num_trials_per_block] has one entry per block, every
    entry lies in [20, 100], and entry [i] is obtained from the i-th geometric
    draw alone: 20 when the draw is below 20, 100 when it is above 100, and
    the draw itself otherwise (20 and 100 included). *)
Theorem reset_block_lengths_clamped (task : ReversalLearningTask) (rnd : Randomness)
    (ep : Episode) (o : StepOutput) :
  reset task rnd = Ok (ep, o) →
  length (num_trials_per_block ep) = num_blocks task
  ∧ Forall (λ nt, 20 ≤ nt ≤ 100) (num_trials_per_block ep)
  ∧ ∀ i, i < num_blocks task →
      let sample := geometric rnd (block_duration_param task) i in
      ∃ nt, num_trials_per_block ep !! i = Some nt
            ∧ 20 ≤ nt ≤ 100
            ∧ (sample < 20 → nt = 20)
            ∧ (100 < sample → nt = 100)
            ∧ (20 ≤ sample ≤ 100 → nt = sample).
Proof.
  intros H. pose proof (reset_block_range task rnd ep o) as Hrange.
  specialize (λ b nt, Hrange b nt H). reset_inv H.
  split; [rewrite Hntpb; apply drawn_lengths_length|]. split.
  - apply Forall_lookup. intros b nt Hb. by apply (Hrange b nt).
  - intros i Hi sample. exists (clamp sample).
    split; [rewrite Hntpb; by apply drawn_lengths_lookup|].
    split; [apply clamp_range|apply clamp_cases].
Qed.

(** C4: after [reset], every trial of block [b] carries the sign of that
    block's preferred side; the sign of block [b + 1] is the negation of the
    sign of block [b]; and the first block's sign is that of the one random
    choice, -1 for left and +1 for right. *)
Theorem reset_preferred_sides_alternate (task : ReversalLearningTask)
    (rnd : Randomness) (ep : Episode) (o : StepOutput) :
  reset task rnd = Ok (ep, o) →
  let ntpb := num_trials_per_block ep in
  let preferred := stimuli_preferred_sides ep in
  (∀ b nt j, ntpb !! b = Some nt → j < nt →
     preferred !! (block_start ntpb b + j)
     = Some (side_sign (block_side (choice rnd) b)))
  ∧ (∀ b nt nt' j j',
       ntpb !! b = Some nt → ntpb !! S b = Some nt' → j < nt → j' < nt' →
       ∃ s, preferred !! (block_start ntpb b + j) = Some s
            ∧ preferred !! (block_start ntpb (S b) + j') = Some (SFopp s)
            ∧ (s = fneg_one ∨ s = fpos_one))
  ∧ (∀ nt j, ntpb !! 0 = Some nt → j < nt →
       preferred !! j
       = Some (match choice rnd with left => fneg_one | right => fpos_one end)).
Proof.
  intros H ntpb preferred. reset_inv H.
  assert (Hall : ∀ b nt j, ntpb !! b = Some nt → j < nt →
     preferred !! (block_start ntpb b + j)
     = Some (side_sign (block_side (choice rnd) b))).
  { intros b nt j Hb Hj. unfold preferred, ntpb in *. rewrite Hpref.
    rewrite Hntpb in *.
    rewrite segments_lookup with (nt := nt); try done.
    - by apply lookup_replicate_2.
    - intros b' nt' _. apply length_replicate. }
  split; [done|]. split.
  - intros b nt nt' j j' Hb Hb' Hj Hj'.
    exists (side_sign (block_side (choice rnd) b)).
    split; [by eapply Hall|]. split.
    + etrans; [by eapply Hall|].
      by rewrite block_side_S, side_sign_toggle.
    + destruct (block_side (choice rnd) b); [by left|by right].
  - intros nt j Hb Hj. specialize (Hall 0 nt j Hb Hj).
    unfold block_start in Hall. rewrite take_0 in Hall. simpl in Hall.
    etrans; [exact Hall|]. by destruct (choice rnd).
Qed.

(** ** The trial timeline *)

Lemma reset_array_lengths_aux (task : ReversalLearningTask) (rnd : Randomness)
    (ep : Episode) (o : StepOutput) :
  reset task rnd = Ok (ep, o) →
  creator_lengths (stimulus_creator task) →
  length (stimuli ep) = total_num_trials ep
  ∧ length (stimuli_sides ep) = total_num_trials ep
  ∧ length (stimuli_strengths ep) = total_num_trials ep
  ∧ length (rewards ep) = total_num_trials ep
  ∧ length (actions ep) = total_num_trials ep.
Proof.
  intros H Hlen. reset_inv H.
  rewrite Htot, Hstim, Hsides, Hstr.
  rewrite Hrew, Hact, !length_replicate, Htot.
  repeat split; try done;
    apply segments_length; intros b nt _; apply (Hlen (0 + b) nt).
Qed.

(** C6: after [reset], when the creator answers every request with three
    sequences of the requested length, the block lengths sum to
    [total_num_trials] and each of the eight per-trial arrays has
    [total_num_trials] entries. *)
Theorem reset_array_lengths (task : ReversalLearningTask) (rnd : Randomness)
    (ep : Episode) (o : StepOutput) :
  reset task rnd = Ok (ep, o) →
  creator_lengths (stimulus_creator task) →
  sum_list (num_trials_per_block ep) = total_num_trials ep
  ∧ length (stimuli ep) = total_num_trials ep
  ∧ length (stimuli_sides ep) = total_num_trials ep
  ∧ length (stimuli_strengths ep) = total_num_trials ep
  ∧ length (stimuli_preferred_sides ep) = total_num_trials ep
  ∧ length (stimuli_block_number ep) = total_num_trials ep
  ∧ length (trial_num_within_block ep) = total_num_trials ep
  ∧ length (rewards ep) = total_num_trials ep
  ∧ length (actions ep) = total_num_trials ep.
Proof.
  intros H Hlen. reset_inv H.
  rewrite Hntpb, Htot, Hstim, Hsides, Hstr, Hpref, Hsbn, Htnwb.
  rewrite Hrew, Hact, !length_replicate, Htot.
  repeat split; try done.
  - apply segments_length. intros b nt _. apply (Hlen (0 + b) nt).
  - apply segments_length. intros b nt _. apply (Hlen (0 + b) nt).
  - apply segments_length. intros b nt _. apply (Hlen (0 + b) nt).
  - apply segments_length. intros b nt _. apply length_replicate.
  - apply segments_length. intros b nt _. apply length_replicate.
  - rewrite length_join, <- list_fmap_compose.
    f_equal. rewrite <- (list_fmap_id (clamp <$> _)) at 2.
    apply list_fmap_ext. intros i nt _. simpl. apply length_seq.
Qed.

(** [reset] returns as soon as there is a block, the parameter of the
    geometric distribution is accepted and the creator respects the
    requested lengths: the first trial exists. *)
Lemma reset_returns (task : ReversalLearningTask) (rnd : Randomness) :
  0 < num_blocks task →
  geometric_param_ok (block_duration_param task) = true →
  creator_lengths (stimulus_creator task) →
  ∃ ep o, reset task rnd = Ok (ep, o).
Proof.
  intros Hnb Hp Hlen. unfold reset. rewrite geometric_draws, Hp, bind_Ok.
  rewrite truncate_clamp.
  set (ntpb := clamp <$> _).
  destruct (build_blocks_spec task ntpb 0 (choice rnd) (Build_Blocks [] [] [] []))
    as (E1 & E2 & E3 & E4).
  simpl in E1, E2, E3, E4. cbv zeta. rewrite E1, E2, E3, E4.
  rewrite zip_with_seq_imap.
  assert (Hlook : ntpb !! 0 = Some (clamp (geometric rnd (block_duration_param task) 0))).
  { by apply drawn_lengths_lookup. }
  assert (Hfirst : is_Some (mjoin (imap (λ b nt,
            sampled_stimuli (block_output task 0 (choice rnd) b nt)) ntpb) !! 0)).
  { apply lookup_lt_is_Some_2. rewrite segments_length.
    - destruct ntpb as [|nt rest]; [done|]. injection Hlook as ->.
      pose proof (clamp_range (geometric rnd (block_duration_param task) 0)).
      simpl. lia.
    - intros b nt _. apply (Hlen (0 + b) nt). }
  destruct Hfirst as [first Hfirst].
  destruct ntpb as [|nt rest]; [done|].
  unfold mbind, result_bind, getitem. simpl in *. rewrite Hfirst. eauto.
Qed.

(** C7: after [reset], [stimuli_block_number] is non-decreasing; its values
    are exactly the block indices 1..[num_blocks]; the value [b + 1] sits at
    exactly the positions of block [b], a run of [num_trials_per_block[b]]
    consecutive trials; and within each block [trial_num_within_block]
    counts 1, 2, ... up to the block's trial count. *)
Theorem reset_block_numbering (task : ReversalLearningTask) (rnd : Randomness)
    (ep : Episode) (o : StepOutput) :
  reset task rnd = Ok (ep, o) →
  let ntpb := num_trials_per_block ep in
  let numbers := stimuli_block_number ep in
  (∀ i j x y, i ≤ j → numbers !! i = Some x → numbers !! j = Some y → x ≤ y)
  ∧ (∀ v, v ∈ numbers ↔ 1 ≤ v ≤ num_blocks task)
  ∧ (∀ i b, numbers !! i = Some (S b)
            ↔ ∃ nt, ntpb !! b = Some nt
                    ∧ block_start ntpb b ≤ i < block_start ntpb b + nt)
  ∧ (∀ b nt j, ntpb !! b = Some nt → j < nt →
       trial_num_within_block ep !! (block_start ntpb b + j) = Some (S j)).
Proof.
  intros H ntpb numbers.
  pose proof (reset_block_range task rnd ep o) as Hrange.
  specialize (λ b nt, Hrange b nt H). fold ntpb in Hrange.
  pose proof H as Hreset. reset_inv H. clear Hstim Hsides Hstr Hpref Hrew Hact.
  assert (Hlen : ∀ b nt, ntpb !! b = Some nt → length (replicate nt (S b)) = nt).
  { intros b nt _. apply length_replicate. }
  assert (Hinv : ∀ i v, numbers !! i = Some v →
            ∃ b nt j, ntpb !! b = Some nt ∧ j < nt
                      ∧ i = block_start ntpb b + j ∧ v = S b).
  { intros i v Hi. unfold numbers in Hi. rewrite Hsbn in Hi. fold ntpb in Hntpb.
    rewrite <- Hntpb in Hi.
    apply segments_lookup_inv in Hi; [|done].
    destruct Hi as (b & nt & j & Hb & Hj & -> & Hv).
    apply lookup_replicate in Hv as [-> _]. by exists b, nt, j. }
  assert (Hfwd : ∀ b nt j, ntpb !! b = Some nt → j < nt →
            numbers !! (block_start ntpb b + j) = Some (S b)).
  { intros b nt j Hb Hj. unfold numbers. rewrite Hsbn. fold ntpb in Hntpb.
    rewrite <- Hntpb. rewrite segments_lookup with (nt := nt) by done.
    by apply lookup_replicate_2. }
  split; [|split; [|split]].
  - intros i j x y Hij (b & nt & k & Hb & Hk & -> & ->)%Hinv
      (b' & nt' & k' & Hb' & Hk' & -> & ->)%Hinv.
    pose proof (block_unique ntpb b b' nt nt' k k' Hb Hb' Hk Hk' Hij). lia.
  - intros v. split.
    + intros [i (b & nt & k & Hb & Hk & -> & ->)%Hinv]%list_elem_of_lookup.
      destruct (Hrange b nt Hb). lia.
    + intros Hv. destruct v as [|b]; [lia|].
      destruct (lookup_lt_is_Some_2 ntpb b) as [nt Hb].
      { unfold ntpb. rewrite Hntpb, drawn_lengths_length. lia. }
      destruct (Hrange b nt Hb) as [_ Hnt].
      apply list_elem_of_lookup. exists (block_start ntpb b + 0).
      apply (Hfwd b nt 0 Hb). lia.
  - intros i b. split.
    + intros (b' & nt & k & Hb & Hk & -> & [= ->])%Hinv.
      exists nt. split; [done|lia].
    + intros (nt & Hb & Hi).
      replace i with (block_start ntpb b + (i - block_start ntpb b)) by lia.
      apply (Hfwd b nt); [done|lia].
  - intros b nt j Hb Hj. rewrite Htnwb. fold ntpb in Hntpb. rewrite <- Hntpb.
    assert (Himap : (λ nt, seq 1 nt) <$> ntpb = imap (λ _ nt, seq 1 nt) ntpb).
    { apply list_eq. intros k. by rewrite list_lookup_fmap, list_lookup_imap. }
    rewrite Himap, segments_lookup with (nt := nt); try done.
    + by apply lookup_seq_lt.
    + intros b' nt' _. apply length_seq.
Qed.

(** C9: the first observation's [done] flag is true exactly when the episode
    has no trial; with at least one trial it is false, the stimulus is the
    one of trial 0 as a single row, the reward is the zero placeholder and
    there is no info payload. *)
Theorem reset_first_observation (task : ReversalLearningTask) (rnd : Randomness)
    (ep : Episode) (o : StepOutput) :
  reset task rnd = Ok (ep, o) →
  (done o = true ↔ total_num_trials ep = 0)
  ∧ (1 ≤ total_num_trials ep →
       done o = false
       ∧ (∃ first, stimuli ep !! 0 = Some first ∧ stimulus o = [first])
       ∧ reward o = fzero
       ∧ info o = None)
  ∧ current_trial_idx ep = 0.
Proof.
  intros H. reset_inv H. subst o. simpl. split; [|split; [|done]].
  - rewrite bool_decide_eq_true. split; intros; lia.
  - intros Hpos. split; [|by eauto].
    apply bool_decide_eq_false. lia.
Qed.

(** Whenever [reset] returns, the episode has at least 20 trials. *)
Lemma reset_total_ge_20 (task : ReversalLearningTask) (rnd : Randomness)
    (ep : Episode) (o : StepOutput) :
  reset task rnd = Ok (ep, o) → 20 ≤ total_num_trials ep.
Proof.
  intros H. reset_inv H. rewrite Htot.
  rewrite <- (take_drop 1 (clamp <$> _)), sum_list_with_app.
  destruct (num_blocks task) as [|n]; [lia|]. simpl.
  pose proof (clamp_range (geometric rnd (block_duration_param task) 0)). lia.
Qed.

(** ** Construction *)

(** C10: when the bias vectors are omitted, the constructor stores
    [0.2, 0.8] under 'left' and [0.8, 0.2] under 'right', so that the larger
    probability of the 'left' vector is in its second position; the
    biased-choice-world factory passes [0.8, 0.2] for left and [0.2, 0.8] for
    right, the two vectors exchanged. *)
Theorem init_default_bias_probs (creator : StimulusCreator)
    (blocks : option nat) (duration : option Q) :
  let task := init creator blocks duration None None in
  side_bias_probs task left = [0.2; 0.8]%Q
  ∧ side_bias_probs task right = [0.8; 0.2]%Q
  ∧ (∃ p0 p1, side_bias_probs task left = [p0; p1] ∧ (p0 < p1)%Q)
  ∧ side_bias_probs (biased_choice_world creator) left = [0.8; 0.2]%Q
  ∧ side_bias_probs (biased_choice_world creator) right = [0.2; 0.8]%Q
  ∧ side_bias_probs task left = side_bias_probs (biased_choice_world creator) right
  ∧ side_bias_probs task right = side_bias_probs (biased_choice_world creator) left
  ∧ side_bias_probs task left ≠ side_bias_probs (biased_choice_world creator) left.
Proof.
  simpl. repeat split; try done.
  exists 0.2%Q, 0.8%Q. split; [done|]. reflexivity.
Qed.

(** ** The episode stepper *)

Lemma SFopp_involutive (x : scalar) : SFopp (SFopp x) = x.
Proof. destruct x; simpl; by rewrite ?negb_involutive. Qed.

Lemma zero_minus_any_format (prec emax : Z) (x : scalar) :
  SFsub prec emax fzero x = zero_minus x.
Proof. by destruct x as [[]|[]| |]. Qed.

Lemma zero_minus_cases (x : scalar) :
  zero_minus x = match x with
                 | S754_zero _ => S754_zero false
                 | _ => SFopp x
                 end.
Proof. by destruct x as [[]|[]| |]. Qed.

(** [-(0 - x)] is [x], except that a zero of either sign gives -0. *)
Lemma reward_of_cases (x : scalar) :
  reward_of x = match x with
                | S754_zero _ => S754_zero true
                | _ => x
                end.
Proof. by destruct x as [[]|[]| |[]]. Qed.

(** It compares equal to [x] wherever [x] compares equal to itself. *)
Lemma reward_of_compare (x : scalar) :
  SFcompare (reward_of x) x = SFcompare x x.
Proof. rewrite reward_of_cases. by destruct x as [[]|[]| |[]]. Qed.

Lemma NLLLoss_signed (side : Z) (a : Action) :
  signed side →
  NLLLoss (encode_target side) a = Ok (zero_minus (component a (encode_target side))).
Proof. by intros [-> | ->]. Qed.

(** The entry that the target of a side -1 or +1 picks. *)
Lemma component_signed (side : Z) (a : Action) :
  signed side →
  (side = (-1)%Z ∧ encode_target side = 0%Z ∧ component a (encode_target side) = a.1)
  ∨ (side = 1%Z ∧ encode_target side = 1%Z ∧ component a (encode_target side) = a.2).
Proof. intros [-> | ->]; [by left|by right]. Qed.

(** [step] up to the increment of the cursor, then the three reads at the
    new cursor. *)
Lemma step_unfold (a : Action) (h : Hidden) (ep : Episode) (side : Z) (loss : scalar) :
  stimuli_sides ep !! current_trial_idx ep = Some side →
  NLLLoss (encode_target side) a = Ok loss →
  current_trial_idx ep < length (rewards ep) →
  current_trial_idx ep < length (actions ep) →
  step a h ep
  = (recorded a h (SFopp loss) ep,
     let idx := current_trial_idx ep + 1 in
     next_stimulus ← getitem f_stimuli (stimuli ep) idx;
     next_side ← getitem f_stimuli_sides (stimuli_sides ep) idx;
     next_strength ← getitem f_stimuli_strengths (stimuli_strengths ep) idx;
     mret {| stimulus := [next_stimulus];
             reward := SFopp loss;
             info := Some {| stimulus_side := next_side;
                             stimulus_strength := next_strength |};
             done := bool_decide (idx + 1 = total_num_trials ep) |}).
Proof.
  intros Hside Hloss Hr Ha.
  unfold step, mbind, M_bind, result_bind, gets, lift, modify, mret, M_ret,
    result_ret, getitem, setitem.
  simpl. rewrite Hside, Hloss. simpl.
  rewrite !decide_True by done. simpl.
  destruct (stimuli ep !! (current_trial_idx ep + 1)); [|done].
  destruct (stimuli_sides ep !! (current_trial_idx ep + 1)); [|done].
  destruct (stimuli_strengths ep !! (current_trial_idx ep + 1)); done.
Qed.

(** A call at or beyond the end of the episode raises at the first read,
    before anything is written. *)
Lemma step_beyond (a : Action) (h : Hidden) (ep : Episode) :
  stimuli_sides ep !! current_trial_idx ep = None →
  step a h ep = (ep, Raise (IndexError f_stimuli_sides (current_trial_idx ep))).
Proof.
  intros Hside.
  unfold step, mbind, M_bind, gets, lift, getitem. simpl. by rewrite Hside.
Qed.

(** A target outside the two classes raises before anything is written. *)
Lemma step_bad_target (a : Action) (h : Hidden) (ep : Episode) (side : Z) (e : Error) :
  stimuli_sides ep !! current_trial_idx ep = Some side →
  NLLLoss (encode_target side) a = Raise e →
  step a h ep = (ep, Raise e).
Proof.
  intros Hside Hloss.
  unfold step, mbind, M_bind, gets, lift, getitem. simpl.
  by rewrite Hside, Hloss.
Qed.

Lemma recorded_wf (a : Action) (h : Hidden) (r : scalar) (ep : Episode) :
  wf ep → wf (recorded a h r ep).
Proof.
  intros [H1 H2 H3 H4 H5]. split; simpl; rewrite ?length_insert; done.
Qed.

Lemma recorded_same_timeline (a : Action) (h : Hidden) (r : scalar) (ep : Episode) :
  same_timeline ep (recorded a h r ep).
Proof. by repeat split. Qed.

Lemma same_timeline_trans (ep1 ep2 ep3 : Episode) :
  same_timeline ep1 ep2 → same_timeline ep2 ep3 → same_timeline ep1 ep3.
Proof.
  unfold same_timeline. intros (?&?&?&?&?&?&?&?) (?&?&?&?&?&?&?&?).
  repeat split; congruence.
Qed.

(** A call inside the episode, on a trial whose side is -1 or +1. *)
Lemma step_at (a : Action) (h : Hidden) (ep : Episode) (side : Z) :
  wf ep →
  stimuli_sides ep !! current_trial_idx ep = Some side → signed side →
  (step a h ep).1 = recorded a h (reward_of (component a (encode_target side))) ep
  ∧ (current_trial_idx ep + 1 < total_num_trials ep →
     ∃ o, (step a h ep).2 = Ok o
          ∧ reward o = reward_of (component a (encode_target side))
          ∧ stimulus o = option_list (stimuli ep !! (current_trial_idx ep + 1))
          ∧ done o = bool_decide (current_trial_idx ep + 1 + 1 = total_num_trials ep))
  ∧ (current_trial_idx ep + 1 = total_num_trials ep →
     (step a h ep).2 = Raise (IndexError f_stimuli (total_num_trials ep))).
Proof.
  intros Hwf Hside Hs. destruct Hwf as [H1 H2 H3 H4 H5].
  pose proof (lookup_lt_Some _ _ _ Hside) as Hlt.
  rewrite (step_unfold a h ep side _ Hside (NLLLoss_signed side a Hs))
    by lia.
  fold (reward_of (component a (encode_target side))). simpl.
  split; [done|]. split.
  - intros Hin.
    destruct (lookup_lt_is_Some_2 (stimuli ep) (current_trial_idx ep + 1))
      as [x Hx]; [lia|].
    destruct (lookup_lt_is_Some_2 (stimuli_sides ep) (current_trial_idx ep + 1))
      as [y Hy]; [lia|].
    destruct (lookup_lt_is_Some_2 (stimuli_strengths ep) (current_trial_idx ep + 1))
      as [z Hz]; [lia|].
    unfold getitem, mbind, result_bind. rewrite Hx, Hy, Hz. simpl. eauto.
  - intros Hlast. unfold getitem, mbind, result_bind.
    rewrite (lookup_ge_None_2 (stimuli ep)) by lia. by rewrite Hlast.
Qed.

Lemma step_signed (a : Action) (h : Hidden) (ep : Episode) :
  wf ep → Forall signed (stimuli_sides ep) →
  current_trial_idx ep < total_num_trials ep →
  ∃ side,
    stimuli_sides ep !! current_trial_idx ep = Some side
    ∧ signed side
    ∧ (step a h ep).1 = recorded a h (reward_of (component a (encode_target side))) ep
    ∧ (current_trial_idx ep + 1 < total_num_trials ep →
       ∃ o, (step a h ep).2 = Ok o
            ∧ reward o = reward_of (component a (encode_target side))
            ∧ stimulus o = option_list (stimuli ep !! (current_trial_idx ep + 1))
            ∧ done o = bool_decide (current_trial_idx ep + 1 + 1 = total_num_trials ep))
    ∧ (current_trial_idx ep + 1 = total_num_trials ep →
       (step a h ep).2 = Raise (IndexError f_stimuli (total_num_trials ep))).
Proof.
  intros Hwf Hsigned Hlt.
  destruct (lookup_lt_is_Some_2 (stimuli_sides ep) (current_trial_idx ep))
    as [side Hside]; [rewrite (wf_sides _ Hwf); lia|].
  assert (Hs : signed side).
  { eapply Forall_lookup_1; [exact Hsigned|exact Hside]. }
  exists side. split; [done|]. split; [done|]. by apply step_at.
Qed.

(** A run of calls that stays inside the episode. *)
Lemma steps_spec (inputs : list (Action * Hidden)) (ep : Episode) :
  wf ep → Forall signed (stimuli_sides ep) →
  current_trial_idx ep + length inputs ≤ total_num_trials ep →
  let ep' := (steps inputs ep).1 in
  let results := (steps inputs ep).2 in
  let c := current_trial_idx ep in
  wf ep'
  ∧ same_timeline ep ep'
  ∧ current_trial_idx ep' = c + length inputs
  ∧ model_hidden_states ep' = model_hidden_states ep ++ inputs.*2
  ∧ length results = length inputs
  ∧ (∀ j, j < c →
       rewards ep' !! j = rewards ep !! j ∧ actions ep' !! j = actions ep !! j)
  ∧ (∀ i a h, inputs !! i = Some (a, h) →
       ∃ side,
         stimuli_sides ep !! (c + i) = Some side
         ∧ signed side
         ∧ rewards ep' !! (c + i)
           = Some (to_float32 (reward_of (component a (encode_target side))))
         ∧ actions ep' !! (c + i) = Some (store_action a)
         ∧ (c + i + 1 < total_num_trials ep →
            ∃ o, results !! i = Some (Ok o)
                 ∧ reward o = reward_of (component a (encode_target side))
                 ∧ stimulus o = option_list (stimuli ep !! (c + i + 1))
                 ∧ done o = bool_decide (c + i + 1 + 1 = total_num_trials ep))
         ∧ (c + i + 1 = total_num_trials ep →
            results !! i = Some (Raise (IndexError f_stimuli (total_num_trials ep))))).
Proof.
  revert ep. induction inputs as [|[a h] inputs IH]; intros ep Hwf Hs Hle; simpl.
  - repeat split; try done; try apply Hwf. by rewrite app_nil_r.
  - simpl in Hle.
    destruct (step_signed a h ep Hwf Hs ltac:(lia))
      as (side & Hside & Hsg & Hep1 & Hin & Hlast).
    destruct (step a h ep) as [ep1 r] eqn:E. simpl in Hep1, Hin, Hlast. subst ep1.
    specialize (IH (recorded a h (reward_of (component a (encode_target side))) ep)
                  (recorded_wf _ _ _ _ Hwf) Hs).
    destruct (steps inputs (recorded a h (reward_of (component a (encode_target side))) ep))
      as [ep2 rs] eqn:E2.
    simpl in IH. specialize (IH ltac:(lia)).
    destruct IH as (Hwf2 & Hsame & Hcur & Hhid & Hlen & Hold & Hnew). simpl.
    destruct Hwf as [W1 W2 W3 W4 W5].
    split; [done|]. split.
    { eapply same_timeline_trans; [apply recorded_same_timeline|exact Hsame]. }
    split; [lia|]. split; [by rewrite Hhid, <- app_assoc|]. split; [lia|]. split.
    { intros j Hj. destruct (Hold j ltac:(lia)) as [-> ->].
      by rewrite !list_lookup_insert_ne by lia. }
    intros i a' h' Hi. destruct i as [|i]; simpl in Hi.
    + injection Hi as <- <-. rewrite !Nat.add_0_r. exists side.
      destruct (Hold (current_trial_idx ep) ltac:(lia)) as [-> ->].
      rewrite !list_lookup_insert_eq by lia. simpl.
      repeat split; try done.
      * intros Hlt. destruct (Hin Hlt) as (o & -> & Ho). by exists o.
      * intros Heq. by rewrite (Hlast Heq).
    + destruct (Hnew i a' h' Hi) as (side' & Hs' & Hsg' & Hr' & Ha' & Hin' & Hlast').
      exists side'.
      replace (current_trial_idx ep + S i) with (current_trial_idx ep + 1 + i) by lia.
      simpl. done.
Qed.

(** What a call that returns has done. *)
Lemma step_Ok_inv (a : Action) (h : Hidden) (ep ep' : Episode) (o : StepOutput) :
  step a h ep = (ep', Ok o) →
  ∃ side loss,
    stimuli_sides ep !! current_trial_idx ep = Some side
    ∧ NLLLoss (encode_target side) a = Ok loss
    ∧ ep' = recorded a h (SFopp loss) ep
    ∧ reward o = SFopp loss
    ∧ done o = bool_decide (current_trial_idx ep' + 1 = total_num_trials ep')
    ∧ is_Some (stimuli ep !! current_trial_idx ep')
    ∧ is_Some (stimuli_sides ep !! current_trial_idx ep')
    ∧ is_Some (stimuli_strengths ep !! current_trial_idx ep').
Proof.
  intros H.
  destruct (stimuli_sides ep !! current_trial_idx ep) as [side|] eqn:Hside;
    [|by rewrite step_beyond in H].
  destruct (NLLLoss (encode_target side) a) as [loss|e] eqn:Hloss;
    [|by rewrite (step_bad_target a h ep side e) in H].
  destruct (decide (current_trial_idx ep < length (rewards ep))) as [Hr|Hr];
    [destruct (decide (current_trial_idx ep < length (actions ep))) as [Ha|Ha]|].
  - rewrite (step_unfold a h ep side loss) in H by done.
    injection H as <- H. unfold getitem, mbind, result_bind in H. simpl in H.
    destruct (stimuli ep !! (current_trial_idx ep + 1)) as [x|] eqn:Hx; [|done].
    destruct (stimuli_sides ep !! (current_trial_idx ep + 1)) as [y|] eqn:Hy; [|done].
    destruct (stimuli_strengths ep !! (current_trial_idx ep + 1)) as [z|] eqn:Hz;
      [|done].
    injection H as <-. exists side, loss. simpl. rewrite Hx, Hy, Hz.
    repeat split; eauto.
  - exfalso. revert H.
    unfold step, mbind, M_bind, result_bind, gets, lift, modify, getitem, setitem.
    simpl. rewrite Hside, Hloss. simpl.
    rewrite decide_True by done. simpl. by rewrite decide_False by done.
  - exfalso. revert H.
    unfold step, mbind, M_bind, result_bind, gets, lift, modify, getitem, setitem.
    simpl. rewrite Hside, Hloss. simpl. by rewrite decide_False by done.
Qed.

Lemma reset_wf (task : ReversalLearningTask) (rnd : Randomness)
    (ep : Episode) (o : StepOutput) :
  reset task rnd = Ok (ep, o) → creator_lengths (stimulus_creator task) →
  wf ep ∧ current_trial_idx ep = 0 ∧ model_hidden_states ep = [].
Proof.
  intros H Hlen.
  destruct (reset_array_lengths_aux task rnd ep o H Hlen) as (?&?&?&?&?).
  reset_inv H. by repeat split.
Qed.

Lemma steps_one (a : Action) (h : Hidden) (ep : Episode) :
  steps [(a, h)] ep = ((step a h ep).1, [(step a h ep).2]).
Proof. simpl. by destruct (step a h ep). Qed.

Lemma all_Ok {A : Type} (rs : list (result A)) :
  (∀ i r, rs !! i = Some r → ∃ x, r = Ok x) → ∃ xs, rs = Ok <$> xs.
Proof.
  induction rs as [|r rs IH]; intros H.
  - by exists [].
  - destruct (H 0 r eq_refl) as [x ->].
    destruct IH as [xs ->]; [intros i r Hi; apply (H (S i) r Hi)|].
    by exists (x :: xs).
Qed.

(** C1: a call of [step] on a trial that is not the last one, whose correct
    side is -1 or +1, returns; its reward is the negated [NLLLoss] of the
    target [(side + 1) / 2] and the action distribution.  The target is 0 for
    the side -1 and 1 for the side +1, the loss is [0 - x] for the entry [x]
    of the distribution at the target, and the reward is that entry: the
    same float, except that a zero of either sign comes back as -0, which
    compares equal to it.  For the side +1 and the distribution
    [log(0.1), log(0.9)] the reward is [log(0.9)]. *)
Theorem step_reward (a : Action) (h : Hidden) (ep : Episode) (side : Z) :
  wf ep →
  current_trial_idx ep + 1 < total_num_trials ep →
  stimuli_sides ep !! current_trial_idx ep = Some side →
  signed side →
  ∃ ep' o loss x,
    step a h ep = (ep', Ok o)
    ∧ ((side = (-1)%Z ∧ encode_target side = 0%Z ∧ x = a.1)
       ∨ (side = 1%Z ∧ encode_target side = 1%Z ∧ x = a.2))
    ∧ NLLLoss (encode_target side) a = Ok loss
    ∧ loss = match x with
             | S754_zero _ => S754_zero false
             | _ => SFopp x
             end
    ∧ reward o = SFopp loss
    ∧ reward o = match x with
                 | S754_zero _ => S754_zero true
                 | _ => x
                 end
    ∧ SFcompare (reward o) x = SFcompare x x
    ∧ (side = 1%Z → a = (log_0_1, log_0_9) → reward o = log_0_9).
Proof.
  intros Hwf Hlt Hside Hs.
  destruct (step_at a h ep side Hwf Hside Hs) as (Hep & Hin & _).
  destruct (Hin Hlt) as (o & Ho & Hr & _).
  exists (step a h ep).1, o, (zero_minus (component a (encode_target side))),
    (component a (encode_target side)).
  split; [by rewrite <- Ho; destruct (step a h ep)|].
  split.
  { destruct (component_signed side a Hs) as [(-> & -> & ->)|(-> & -> & ->)];
      [by left|by right]. }
  split; [by apply NLLLoss_signed|].
  split; [apply zero_minus_cases|]. split; [done|].
  split; [by rewrite Hr, reward_of_cases|].
  split; [by rewrite Hr, reward_of_compare|].
  intros -> ->. by rewrite Hr.
Qed.

(** C2: a call of [step] that returns has advanced the cursor by one and
    reports [done] when the new cursor plus one equals [total_num_trials].
    In a run of calls after [reset], the call number [i + 1] therefore
    reports [done] exactly when [i + 2] is the number of trials; in an
    episode of 20 trials the first 18 calls report false, the 19th reports
    true, and a 20th call raises on its read past the last trial. *)
Theorem step_done (task : ReversalLearningTask) (rnd : Randomness)
    (ep : Episode) (first : StepOutput) (inputs : list (Action * Hidden)) :
  reset task rnd = Ok (ep, first) →
  creator_lengths (stimulus_creator task) →
  Forall signed (stimuli_sides ep) →
  length inputs < total_num_trials ep →
  (∀ a h e e' o,
     step a h e = (e', Ok o) →
     current_trial_idx e' = current_trial_idx e + 1
     ∧ total_num_trials e' = total_num_trials e
     ∧ done o = bool_decide (current_trial_idx e' + 1 = total_num_trials e'))
  ∧ ∃ outs,
      (steps inputs ep).2 = Ok <$> outs
      ∧ length outs = length inputs
      ∧ (∀ i o, outs !! i = Some o →
           done o = bool_decide (i + 2 = total_num_trials ep))
      ∧ (total_num_trials ep = 20 → length inputs = 19 →
           done <$> outs = replicate 18 false ++ [true]
           ∧ ∀ a h, (step a h (steps inputs ep).1).2
                    = Raise (IndexError f_stimuli 20)).
Proof.
  intros Hreset Hlen Hsigned Hk. split.
  { intros a h e e' o (side & loss & _ & _ & -> & _ & Hd & _)%step_Ok_inv.
    by rewrite Hd. }
  destruct (reset_wf task rnd ep first Hreset Hlen) as (Hwf & Hcur & _).
  destruct (steps_spec inputs ep Hwf Hsigned ltac:(lia))
    as (Hwf' & Hsame & Hcur' & _ & Hlenr & _ & Hcalls).
  rewrite Hcur in Hcalls, Hcur'. simpl in Hcalls, Hcur'.
  assert (Hret : ∀ i r, (steps inputs ep).2 !! i = Some r →
            ∃ o, r = Ok o ∧ done o = bool_decide (i + 2 = total_num_trials ep)).
  { intros i r Hi.
    destruct (lookup_lt_is_Some_2 inputs i) as [[a h] Hin].
    { rewrite <- Hlenr. by eapply lookup_lt_Some. }
    destruct (Hcalls i a h Hin) as (side & _ & _ & _ & _ & Hok & _).
    apply lookup_lt_Some in Hin.
    destruct (Hok ltac:(lia)) as (o & Ho & _ & _ & Hd).
    rewrite Hi in Ho. injection Ho as ->. exists o. split; [done|].
    rewrite Hd. apply bool_decide_ext. lia. }
  destruct (all_Ok (steps inputs ep).2) as [outs Houts].
  { intros i r Hi. destruct (Hret i r Hi) as (o & -> & _). eauto. }
  exists outs. split; [done|].
  assert (Hlo : length outs = length inputs).
  { by rewrite <- Hlenr, Houts, length_fmap. }
  split; [done|].
  assert (Hdone : ∀ i o, outs !! i = Some o →
            done o = bool_decide (i + 2 = total_num_trials ep)).
  { intros i o Hi. destruct (Hret i (Ok o)) as (o' & [= <-] & Hd); [|done].
    by rewrite Houts, list_lookup_fmap, Hi. }
  split; [done|]. intros Htot H19. split.
  - apply list_eq. intros i. rewrite list_lookup_fmap.
    destruct (outs !! i) as [o|] eqn:Hi; simpl.
    + rewrite (Hdone i o Hi), Htot.
      apply lookup_lt_Some in Hi. rewrite Hlo, H19 in Hi.
      do 19 (destruct i as [|i]; [done|]). lia.
    + apply lookup_ge_None in Hi. rewrite Hlo, H19 in Hi.
      symmetry. apply lookup_ge_None. simpl. lia.
  - intros a h.
    destruct Hsame as (_ & _ & _ & _ & Hsides & _ & _ & Htot').
    destruct (step_signed a h (steps inputs ep).1 Hwf')
      as (side & _ & _ & _ & _ & Hlast).
    + by rewrite Hsides.
    + lia.
    + rewrite Hlast by lia. by rewrite Htot', Htot.
Qed.

(** C5: on a well-formed episode whose current side is -1 or +1, a call of
    [step] before the last trial makes all its reads and writes in range and
    returns; a call on the last trial or beyond raises an index error and
    the index of its reads after the increment is out of range for
    [stimuli], [stimuli_sides] and [stimuli_strengths].  On the last trial
    the records are written and the cursor advanced before the read of
    [stimuli] raises; beyond it the first read of [stimuli_sides] raises and
    the episode is left as it was.  Nothing in [step] checks the cursor. *)
Theorem step_index_bounds (a : Action) (h : Hidden) (ep : Episode) :
  wf ep →
  (∀ side, stimuli_sides ep !! current_trial_idx ep = Some side → signed side) →
  let c := current_trial_idx ep in
  (c + 1 < total_num_trials ep →
     (is_Some (stimuli_sides ep !! c)
      ∧ c < length (rewards ep)
      ∧ c < length (actions ep)
      ∧ is_Some (stimuli ep !! (c + 1))
      ∧ is_Some (stimuli_sides ep !! (c + 1))
      ∧ is_Some (stimuli_strengths ep !! (c + 1)))
     ∧ ∃ ep' o, step a h ep = (ep', Ok o))
  ∧ (total_num_trials ep ≤ c + 1 →
     (stimuli ep !! (c + 1) = None
      ∧ stimuli_sides ep !! (c + 1) = None
      ∧ stimuli_strengths ep !! (c + 1) = None)
     ∧ ∃ ep' f i, step a h ep = (ep', Raise (IndexError f i)))
  ∧ (c + 1 = total_num_trials ep →
     ∃ ep',
       step a h ep = (ep', Raise (IndexError f_stimuli (c + 1)))
       ∧ current_trial_idx ep' = c + 1
       ∧ length (model_hidden_states ep') = length (model_hidden_states ep) + 1)
  ∧ (total_num_trials ep ≤ c →
     step a h ep = (ep, Raise (IndexError f_stimuli_sides c))).
Proof.
  intros Hwf Hsg c. pose proof Hwf as [W1 W2 W3 W4 W5].
  assert (Hlast : c + 1 = total_num_trials ep →
     ∃ ep',
       step a h ep = (ep', Raise (IndexError f_stimuli (c + 1)))
       ∧ current_trial_idx ep' = c + 1
       ∧ length (model_hidden_states ep') = length (model_hidden_states ep) + 1).
  { intros Heq.
    destruct (lookup_lt_is_Some_2 (stimuli_sides ep) c) as [side Hside]; [lia|].
    destruct (step_at a h ep side Hwf Hside (Hsg side Hside)) as (Hep & _ & Hr).
    specialize (Hr Heq). exists (step a h ep).1.
    split; [rewrite Heq, <- Hr; by destruct (step a h ep)|].
    rewrite Hep. simpl. by rewrite length_app. }
  assert (Hbeyond : total_num_trials ep ≤ c →
     step a h ep = (ep, Raise (IndexError f_stimuli_sides c))).
  { intros Hge. apply step_beyond. apply lookup_ge_None. fold c. lia. }
  split; [|split; [|split]]; try done.
  - intros Hlt. split.
    + repeat split; try lia; apply lookup_lt_is_Some_2; lia.
    + destruct (lookup_lt_is_Some_2 (stimuli_sides ep) c) as [side Hside]; [lia|].
      destruct (step_at a h ep side Hwf Hside (Hsg side Hside)) as (_ & Hin & _).
      destruct (Hin Hlt) as (o & Ho & _).
      exists (step a h ep).1, o. rewrite <- Ho. by destruct (step a h ep).
  - intros Hge. split.
    + repeat split; apply lookup_ge_None; lia.
    + destruct (decide (c + 1 = total_num_trials ep)) as [Heq|Hne].
      * destruct (Hlast Heq) as (ep' & Hstep & _). eauto.
      * rewrite Hbeyond by lia. eauto.
Qed.

(** C8: on a well-formed episode whose sides are -1 or +1, a run of calls
    of [step] that does not go beyond the last trial (a single call is the
    run of length one) leaves the schedule, the timeline and
    [total_num_trials] unchanged, advances the cursor by one per call,
    appends one snapshot of the hidden state per call, in order, and leaves
    the earlier records as they were.  Each call writes, at the cursor it
    started from, its reward and its action distribution, as the float32
    values that the two tensors hold: the action entries as they are when
    they are float32 values already, and the reward that the call returns,
    which is the entry of the distribution on the correct side (a zero
    entry gives -0).  After [reset], where the cursor is 0 and no snapshot
    is stored, [k] calls leave the cursor at [k] and [k] snapshots. *)
Theorem step_records (inputs : list (Action * Hidden)) (ep : Episode) :
  wf ep →
  Forall signed (stimuli_sides ep) →
  current_trial_idx ep + length inputs ≤ total_num_trials ep →
  let ep' := (steps inputs ep).1 in
  let results := (steps inputs ep).2 in
  let c := current_trial_idx ep in
  (∀ a h, inputs = [(a, h)] → ep' = (step a h ep).1 ∧ results = [(step a h ep).2])
  ∧ same_timeline ep ep'
  ∧ current_trial_idx ep' = c + length inputs
  ∧ model_hidden_states ep' = model_hidden_states ep ++ inputs.*2
  ∧ length (rewards ep') = length (rewards ep)
  ∧ length (actions ep') = length (actions ep)
  ∧ (∀ j, j < c →
       rewards ep' !! j = rewards ep !! j ∧ actions ep' !! j = actions ep !! j)
  ∧ (∀ i a h, inputs !! i = Some (a, h) →
       ∃ side x,
         stimuli_sides ep !! (c + i) = Some side
         ∧ ((side = (-1)%Z ∧ x = a.1) ∨ (side = 1%Z ∧ x = a.2))
         ∧ rewards ep' !! (c + i)
           = Some (to_float32 match x with
                              | S754_zero _ => S754_zero true
                              | _ => x
                              end)
         ∧ actions ep' !! (c + i) = Some (to_float32 a.1, to_float32 a.2)
         ∧ (to_float32 a.1 = a.1 → to_float32 a.2 = a.2 →
            actions ep' !! (c + i) = Some a)
         ∧ (c + i + 1 < total_num_trials ep →
            ∃ o, results !! i = Some (Ok o)
                 ∧ reward o = match x with
                              | S754_zero _ => S754_zero true
                              | _ => x
                              end
                 ∧ rewards ep' !! (c + i) = Some (to_float32 (reward o))))
  ∧ (∀ task rnd first,
       reset task rnd = Ok (ep, first) →
       current_trial_idx ep' = length inputs
       ∧ length (model_hidden_states ep') = length inputs).
Proof.
  intros Hwf Hsigned Hle ep' results c.
  destruct (steps_spec inputs ep Hwf Hsigned Hle)
    as (Hwf' & Hsame & Hc & Hh & _ & Hold & Hcalls).
  fold ep' in Hwf', Hsame, Hc, Hh, Hold, Hcalls.
  fold results in Hcalls. fold c in Hc, Hold, Hcalls.
  split; [intros a h ->; unfold ep', results; by rewrite steps_one|].
  split; [done|]. split; [done|]. split; [done|].
  destruct Hsame as (_ & _ & _ & _ & _ & _ & _ & Ht).
  split; [rewrite (wf_rewards _ Hwf'), (wf_rewards _ Hwf); done|].
  split; [rewrite (wf_actions _ Hwf'), (wf_actions _ Hwf); done|].
  split; [done|]. split.
  - intros i a h Hi.
    destruct (Hcalls i a h Hi) as (side & Hside & Hsg & Hr & Ha & Hin & _).
    rewrite reward_of_cases in Hr.
    exists side, (component a (encode_target side)).
    split; [done|]. split.
    { destruct (component_signed side a Hsg) as [(-> & _ & ->)|(-> & _ & ->)];
        [by left|by right]. }
    split; [done|]. split; [done|]. split.
    { intros E1 E2. etrans; [exact Ha|]. destruct a as [a1 a2].
      unfold store_action. simpl in *. by rewrite E1, E2. }
    intros Hlt. destruct (Hin Hlt) as (o & Ho & Hro & _).
    exists o. rewrite Hro, reward_of_cases. done.
  - intros task rnd first0 Hreset. reset_inv Hreset.
    rewrite Hc, Hh, Hhid. unfold c. rewrite Hcur. simpl.
    by rewrite length_fmap.
Qed.

(** ** The mocked episodes *)

Lemma mock_creator_lengths : creator_lengths mock_creator.
Proof. intros call n probs. simpl. by rewrite !length_replicate. Qed.

Lemma mock_reset : reset mock_task mock_rnd = Ok (mock_episode, mock_first).
Proof. vm_compute. reflexivity. Qed.

Lemma three_blocks_reset :
  reset three_blocks_task three_blocks_rnd = Ok (three_blocks_episode, mock_first).
Proof. vm_compute. reflexivity. Qed.

Lemma mock_wf : wf mock_episode.
Proof. split; vm_compute; reflexivity. Qed.

Lemma mock_signed : Forall signed (stimuli_sides mock_episode).
Proof.
  change (stimuli_sides mock_episode) with (replicate 20 1%Z).
  apply Forall_replicate. by right.
Qed.

Lemma reset_block_lengths_clamped_witness :
  reset three_blocks_task three_blocks_rnd = Ok (three_blocks_episode, mock_first)
  ∧ length (num_trials_per_block three_blocks_episode) = num_blocks three_blocks_task
  ∧ Forall (λ nt, 20 ≤ nt ≤ 100) (num_trials_per_block three_blocks_episode)
  ∧ ∀ i, i < num_blocks three_blocks_task →
      let sample :=
        geometric three_blocks_rnd (block_duration_param three_blocks_task) i in
      ∃ nt, num_trials_per_block three_blocks_episode !! i = Some nt
            ∧ 20 ≤ nt ≤ 100
            ∧ (sample < 20 → nt = 20)
            ∧ (100 < sample → nt = 100)
            ∧ (20 ≤ sample ≤ 100 → nt = sample).
Proof.
  split; [vm_compute; reflexivity|].
  apply (reset_block_lengths_clamped three_blocks_task three_blocks_rnd
           three_blocks_episode mock_first).
  vm_compute. reflexivity.
Defined.

Lemma reset_preferred_sides_alternate_witness :
  reset three_blocks_task three_blocks_rnd = Ok (three_blocks_episode, mock_first)
  ∧ stimuli_preferred_sides three_blocks_episode !! 19 = Some fpos_one
  ∧ stimuli_preferred_sides three_blocks_episode !! 20 = Some fneg_one.
Proof.
  split; [vm_compute; reflexivity|].
  destruct (reset_preferred_sides_alternate three_blocks_task three_blocks_rnd
              three_blocks_episode mock_first) as (Hall & _ & _).
  { vm_compute. reflexivity. }
  split.
  - apply (Hall 0 20 19); [vm_compute; reflexivity|lia].
  - apply (Hall 1 60 0); [vm_compute; reflexivity|lia].
Defined.

Lemma reset_array_lengths_witness :
  reset three_blocks_task three_blocks_rnd = Ok (three_blocks_episode, mock_first)
  ∧ creator_lengths (stimulus_creator three_blocks_task)
  ∧ sum_list (num_trials_per_block three_blocks_episode) = 180
  ∧ length (stimuli three_blocks_episode) = 180
  ∧ length (actions three_blocks_episode) = 180.
Proof.
  split; [vm_compute; reflexivity|]. split; [exact mock_creator_lengths|].
  destruct (reset_array_lengths three_blocks_task three_blocks_rnd
              three_blocks_episode mock_first) as (H1 & H2 & _ & _ & _ & _ & _ & _ & H9).
  { vm_compute. reflexivity. }
  { exact mock_creator_lengths. }
  split; [exact H1|]. split; [exact H2|exact H9].
Defined.

Lemma reset_block_numbering_witness :
  reset three_blocks_task three_blocks_rnd = Ok (three_blocks_episode, mock_first)
  ∧ stimuli_block_number three_blocks_episode !! 79 = Some 2
  ∧ trial_num_within_block three_blocks_episode !! 79 = Some 60.
Proof.
  split; [vm_compute; reflexivity|].
  destruct (reset_block_numbering three_blocks_task three_blocks_rnd
              three_blocks_episode mock_first) as (_ & _ & Hpos & Hnum).
  { vm_compute. reflexivity. }
  split.
  - apply (Hpos 79 1). exists 60. split; [vm_compute; reflexivity|].
    vm_compute. lia.
  - apply (Hnum 1 60 59); [vm_compute; reflexivity|lia].
Defined.

Lemma reset_first_observation_witness :
  reset mock_task mock_rnd = Ok (mock_episode, mock_first)
  ∧ (done mock_first = true ↔ total_num_trials mock_episode = 0)
  ∧ (1 ≤ total_num_trials mock_episode →
       done mock_first = false
       ∧ (∃ first, stimuli mock_episode !! 0 = Some first
                   ∧ stimulus mock_first = [first])
       ∧ reward mock_first = fzero
       ∧ info mock_first = None)
  ∧ current_trial_idx mock_episode = 0.
Proof.
  split; [vm_compute; reflexivity|].
  apply (reset_first_observation mock_task mock_rnd mock_episode mock_first).
  vm_compute. reflexivity.
Defined.

Lemma step_reward_witness :
  (wf mock_episode
   ∧ current_trial_idx mock_episode + 1 < total_num_trials mock_episode
   ∧ stimuli_sides mock_episode !! current_trial_idx mock_episode = Some 1%Z
   ∧ signed 1
   ∧ ∃ ep' o,
       step (log_0_1, log_0_9) [] mock_episode = (ep', Ok o)
       ∧ reward o = log_0_9)
  ∧ (wf mock_left_episode
     ∧ current_trial_idx mock_left_episode + 1 < total_num_trials mock_left_episode
     ∧ stimuli_sides mock_left_episode !! current_trial_idx mock_left_episode
       = Some (-1)%Z
     ∧ signed (-1)
     ∧ ∃ ep' o,
         step (fzero, log_0_9) [] mock_left_episode = (ep', Ok o)
         ∧ reward o = S754_zero true).
Proof.
  split.
  - assert (Hwf : wf mock_episode) by (split; vm_compute; reflexivity).
    assert (Hlt : current_trial_idx mock_episode + 1 < total_num_trials mock_episode)
      by (vm_compute; lia).
    assert (Hside : stimuli_sides mock_episode !! current_trial_idx mock_episode
                    = Some 1%Z) by (vm_compute; reflexivity).
    assert (Hs : signed 1) by (right; reflexivity).
    repeat (split; [assumption|]).
    destruct (step_reward (log_0_1, log_0_9) [] mock_episode 1 Hwf Hlt Hside Hs)
      as (ep' & o & loss & x & Hstep & _ & _ & _ & _ & _ & _ & Hlog).
    exists ep', o. split; [exact Hstep|]. apply Hlog; reflexivity.
  - assert (Hwf : wf mock_left_episode) by (split; vm_compute; reflexivity).
    assert (Hlt : current_trial_idx mock_left_episode + 1
                  < total_num_trials mock_left_episode) by (vm_compute; lia).
    assert (Hside : stimuli_sides mock_left_episode
                      !! current_trial_idx mock_left_episode = Some (-1)%Z)
      by (vm_compute; reflexivity).
    assert (Hs : signed (-1)) by (left; reflexivity).
    repeat (split; [assumption|]).
    destruct (step_reward (fzero, log_0_9) [] mock_left_episode (-1) Hwf Hlt Hside Hs)
      as (ep' & o & loss & x & Hstep & Hx & _ & _ & _ & Hr & _).
    exists ep', o. split; [exact Hstep|].
    destruct Hx as [(_ & _ & ->)|(Hbad & _)]; [exact Hr|discriminate Hbad].
Defined.

Lemma step_done_witness :
  reset mock_task mock_rnd = Ok (mock_episode, mock_first)
  ∧ creator_lengths (stimulus_creator mock_task)
  ∧ Forall signed (stimuli_sides mock_episode)
  ∧ length (replicate 19 ((log_0_1, log_0_9), @nil scalar))
    < total_num_trials mock_episode
  ∧ ∃ outs,
      (steps (replicate 19 ((log_0_1, log_0_9), [])) mock_episode).2 = Ok <$> outs
      ∧ done <$> outs = replicate 18 false ++ [true].
Proof.
  assert (Hreset : reset mock_task mock_rnd = Ok (mock_episode, mock_first))
    by (vm_compute; reflexivity).
  assert (Hsigned : Forall signed (stimuli_sides mock_episode)).
  { change (stimuli_sides mock_episode) with (replicate 20 1%Z).
    apply Forall_replicate. right. reflexivity. }
  assert (Hk : length (replicate 19 ((log_0_1, log_0_9), @nil scalar))
               < total_num_trials mock_episode) by (vm_compute; lia).
  split; [exact Hreset|]. split; [exact mock_creator_lengths|].
  split; [exact Hsigned|]. split; [exact Hk|].
  destruct (step_done mock_task mock_rnd mock_episode mock_first
              (replicate 19 ((log_0_1, log_0_9), []))
              Hreset mock_creator_lengths Hsigned Hk)
    as (_ & outs & Houts & _ & _ & H20).
  exists outs. split; [exact Houts|].
  apply H20; vm_compute; reflexivity.
Defined.

Lemma step_index_bounds_witness :
  wf mock_episode
  ∧ (∀ side, stimuli_sides mock_episode !! current_trial_idx mock_episode = Some side →
             signed side)
  ∧ ∃ ep' o, step (log_0_1, log_0_9) [] mock_episode = (ep', Ok o).
Proof.
  assert (Hwf : wf mock_episode) by (split; vm_compute; reflexivity).
  assert (Hsg : ∀ side,
            stimuli_sides mock_episode !! current_trial_idx mock_episode = Some side →
            signed side).
  { intros side Hside. vm_compute in Hside. injection Hside as <-.
    right. reflexivity. }
  split; [exact Hwf|]. split; [exact Hsg|].
  destruct (step_index_bounds (log_0_1, log_0_9) [] mock_episode Hwf Hsg)
    as (Hin & _).
  apply Hin. vm_compute. lia.
Defined.

Lemma step_records_witness :
  wf mock_episode
  ∧ Forall signed (stimuli_sides mock_episode)
  ∧ current_trial_idx mock_episode
    + length (replicate 20 ((log_0_1_f32, log_0_9_f32), @nil scalar))
    ≤ total_num_trials mock_episode
  ∧ current_trial_idx
      (steps (replicate 20 ((log_0_1_f32, log_0_9_f32), [])) mock_episode).1 = 20
  ∧ model_hidden_states
      (steps (replicate 20 ((log_0_1_f32, log_0_9_f32), [])) mock_episode).1
    = replicate 20 []
  ∧ rewards (steps (replicate 20 ((log_0_1_f32, log_0_9_f32), [])) mock_episode).1
      !! 3 = Some log_0_9_f32
  ∧ actions (steps (replicate 20 ((log_0_1_f32, log_0_9_f32), [])) mock_episode).1
      !! 3 = Some (log_0_1_f32, log_0_9_f32)
  ∧ current_trial_idx mock_episode
    + length (replicate 5 ((log_0_1, log_0_9), @nil scalar))
    ≤ total_num_trials mock_episode
  ∧ rewards (steps (replicate 5 ((log_0_1, log_0_9), [])) mock_episode).1
      !! 3 = Some log_0_9_f32
  ∧ actions (steps (replicate 5 ((log_0_1, log_0_9), [])) mock_episode).1
      !! 3 = Some (log_0_1_f32, log_0_9_f32)
  ∧ ∃ o, (steps (replicate 5 ((log_0_1, log_0_9), [])) mock_episode).2 !! 3
         = Some (Ok o)
         ∧ reward o = log_0_9.
Proof.
  assert (Hwf : wf mock_episode) by (split; vm_compute; reflexivity).
  assert (Hsigned : Forall signed (stimuli_sides mock_episode)).
  { change (stimuli_sides mock_episode) with (replicate 20 1%Z).
    apply Forall_replicate. right. reflexivity. }
  assert (Hle : current_trial_idx mock_episode
                + length (replicate 20 ((log_0_1_f32, log_0_9_f32), @nil scalar))
                ≤ total_num_trials mock_episode) by (vm_compute; lia).
  assert (Hle' : current_trial_idx mock_episode
                 + length (replicate 5 ((log_0_1, log_0_9), @nil scalar))
                 ≤ total_num_trials mock_episode) by (vm_compute; lia).
  split; [exact Hwf|]. split; [exact Hsigned|]. split; [exact Hle|].
  destruct (step_records (replicate 20 ((log_0_1_f32, log_0_9_f32), [])) mock_episode
              Hwf Hsigned Hle) as (_ & _ & Hcur & Hhid & _ & _ & _ & Hcalls & _).
  split; [exact Hcur|]. split; [exact Hhid|].
  destruct (Hcalls 3 (log_0_1_f32, log_0_9_f32) [] eq_refl)
    as (side & x & Hside & Hx & Hr & _ & Ha & _).
  split.
  { destruct Hx as [(Hbad & _)|(_ & ->)].
    - rewrite Hbad in Hside. vm_compute in Hside. discriminate Hside.
    - exact Hr. }
  split; [apply Ha; vm_compute; reflexivity|].
  split; [exact Hle'|].
  destruct (step_records (replicate 5 ((log_0_1, log_0_9), [])) mock_episode
              Hwf Hsigned Hle') as (_ & _ & _ & _ & _ & _ & _ & Hcalls' & _).
  destruct (Hcalls' 3 (log_0_1, log_0_9) [] eq_refl)
    as (side' & x' & Hside' & Hx' & Hr' & Ha' & _ & Hret).
  assert (Ex : x' = log_0_9).
  { destruct Hx' as [(Hbad & _)|(_ & ->)]; [|reflexivity].
    rewrite Hbad in Hside'. vm_compute in Hside'. discriminate Hside'. }
  rewrite Ex in Hr', Hret.
  split; [exact Hr'|]. split; [exact Ha'|].
  destruct Hret as (o & Ho & Hro & _); [vm_compute; lia|].
  exists o. split; [exact Ho|exact Hro].
Defined.

(** What the store into a float32 tensor does to the binary64 values of
    the two logarithms. *)
Example to_float32_log :
  to_float32 log_0_1 = log_0_1_f32 ∧ to_float32 log_0_9 = log_0_9_f32
  ∧ to_float32 log_0_9_f32 = log_0_9_f32.
Proof. vm_compute. done. Qed.

(** * Further properties of [reset] *)

Lemma reset_value_error (task : ReversalLearningTask) (rnd : Randomness) :
  num_blocks task = 0 ∨ geometric_param_ok (block_duration_param task) = false →
  reset task rnd = Raise ValueError.
Proof.
  intros H. unfold reset. rewrite geometric_draws.
  destruct (geometric_param_ok (block_duration_param task)) eqn:Hp.
  - destruct H as [Hnb|]; [|done]. by rewrite Hnb.
  - by destruct (num_blocks task).
Qed.

Lemma sum_clamp_bounds (l : list nat) :
  20 * length l ≤ sum_list (clamp <$> l) ≤ 100 * length l.
Proof.
  induction l as [|n l IH]; [simpl; lia|].
  change (sum_list (clamp <$> n :: l)) with (clamp n + sum_list (clamp <$> l)).
  pose proof (clamp_range n). simpl length. lia.
Qed.

(** X1: with a creator that returns arrays of the requested lengths and
    stimuli of one shape, [reset] returns exactly when the task has at least
    one block and its [block_duration_param] lies in (0, 1]; otherwise it
    raises [ValueError]: [np.random.geometric] refuses a parameter outside
    (0, 1], and without a block there is nothing to concatenate. *)
Theorem reset_failures (task : ReversalLearningTask) (rnd : Randomness) :
  creator_lengths (stimulus_creator task) →
  creator_uniform (stimulus_creator task) →
  ((∃ ep o, reset task rnd = Ok (ep, o))
   ↔ 0 < num_blocks task ∧ geometric_param_ok (block_duration_param task) = true)
  ∧ (reset task rnd = Raise ValueError
     ↔ num_blocks task = 0 ∨ geometric_param_ok (block_duration_param task) = false).
Proof.
  intros Hlen _.
  destruct (decide (num_blocks task = 0)) as [Hnb|Hnb].
  - rewrite (reset_value_error task rnd) by by left.
    split; split; try (intros [? [? ?]]; done); try (intros [? _]; lia); auto.
  - destruct (geometric_param_ok (block_duration_param task)) eqn:Hp.
    + destruct (reset_returns task rnd ltac:(lia) Hp Hlen) as (ep & o & Hok).
      rewrite Hok. split; split; try done.
      * intros _. split; [lia|done].
      * intros _. eauto.
      * intros [?|?]; done.
    + rewrite (reset_value_error task rnd) by by right.
      split; split; try (intros [? [? ?]]; done); try (intros [_ ?]; done); auto.
Qed.

Lemma mock_creator_uniform : creator_uniform mock_creator.
Proof.
  exists 2. intros call n probs row Hrow. simpl in Hrow.
  by apply elem_of_replicate in Hrow as [-> _].
Qed.

Lemma reset_failures_witness :
  creator_lengths mock_creator
  ∧ creator_uniform mock_creator
  ∧ (∃ ep o, reset mock_task mock_rnd = Ok (ep, o))
  ∧ reset (init mock_creator (Some 1) (Some 2%Q) None None) mock_rnd
    = Raise ValueError
  ∧ reset (init mock_creator (Some 0) None None None) mock_rnd = Raise ValueError.
Proof.
  split; [exact mock_creator_lengths|]. split; [exact mock_creator_uniform|].
  split; [|split].
  - apply (reset_failures mock_task mock_rnd
             mock_creator_lengths mock_creator_uniform).
    split; [vm_compute; lia|vm_compute; reflexivity].
  - apply (reset_failures (init mock_creator (Some 1) (Some 2%Q) None None) mock_rnd
             mock_creator_lengths mock_creator_uniform).
    right. vm_compute. reflexivity.
  - apply (reset_failures (init mock_creator (Some 0) None None None) mock_rnd
             mock_creator_lengths mock_creator_uniform).
    left. vm_compute. reflexivity.
Defined.

(** X2: when [reset] returns, the episode has between 20 and 100 trials per
    block: [20 * num_blocks <= total_num_trials <= 100 * num_blocks]. *)
Theorem reset_total_bounds (task : ReversalLearningTask) (rnd : Randomness)
    (ep : Episode) (o : StepOutput) :
  reset task rnd = Ok (ep, o) →
  20 * num_blocks task ≤ total_num_trials ep ≤ 100 * num_blocks task.
Proof.
  intros H. reset_inv H. rewrite Htot.
  pose proof (sum_clamp_bounds
                (geometric rnd (block_duration_param task) <$> seq 0 (num_blocks task)))
    as Hb.
  by rewrite length_fmap, length_seq in Hb.
Qed.

Lemma reset_total_bounds_witness :
  reset three_blocks_task three_blocks_rnd = Ok (three_blocks_episode, mock_first)
  ∧ 20 * num_blocks three_blocks_task
    ≤ total_num_trials three_blocks_episode
    ≤ 100 * num_blocks three_blocks_task.
Proof.
  split; [vm_compute; reflexivity|].
  apply (reset_total_bounds three_blocks_task three_blocks_rnd
           three_blocks_episode mock_first).
  vm_compute. reflexivity.
Defined.

(** X3: the truncation loop keeps the number of blocks, changes nothing
    when run a second time, and leaves a list unchanged exactly when all its
    entries already lie in [20, 100]. *)
Theorem truncate_idempotent (l : list nat) :
  length (truncate l) = length l
  ∧ truncate (truncate l) = truncate l
  ∧ (truncate l = l ↔ Forall (λ n, 20 ≤ n ≤ 100) l).
Proof.
  rewrite !truncate_clamp. split; [by rewrite length_fmap|]. split.
  - rewrite <- list_fmap_compose. apply list_fmap_ext. intros i n _. simpl.
    pose proof (clamp_range n). by apply clamp_cases.
  - split.
    + intros Heq. rewrite <- Heq. apply Forall_fmap, Forall_true.
      intros n. apply clamp_range.
    + intros Hall. rewrite <- (list_fmap_id l) at 2.
      apply Forall_fmap_ext_1. eapply Forall_impl; [exact Hall|].
      intros n Hn. simpl. by apply clamp_cases.
Qed.

(** Lookups by block and position in the arrays that [reset] fills from the
    block lengths alone. *)
Lemma reset_block_lookups (task : ReversalLearningTask) (rnd : Randomness)
    (ep : Episode) (o : StepOutput) (b nt j : nat) :
  reset task rnd = Ok (ep, o) →
  num_trials_per_block ep !! b = Some nt → j < nt →
  let i := block_start (num_trials_per_block ep) b + j in
  stimuli_preferred_sides ep !! i = Some (side_sign (block_side (choice rnd) b))
  ∧ stimuli_block_number ep !! i = Some (S b)
  ∧ trial_num_within_block ep !! i = Some (S j).
Proof.
  intros H Hb Hj i. unfold i. reset_inv H.
  rewrite Hpref, Hsbn, Htnwb, Hntpb in *.
  set (ntpb := clamp <$> _) in *.
  assert (Himap : (λ nt, seq 1 nt) <$> ntpb = imap (λ _ nt, seq 1 nt) ntpb).
  { apply list_eq. intros k. by rewrite list_lookup_fmap, list_lookup_imap. }
  rewrite Himap.
  rewrite !segments_lookup with (nt := nt);
    try done; try (intros b' nt' _; apply length_replicate);
    try (intros b' nt' _; apply length_seq).
  split; [by apply lookup_replicate_2|].
  split; [by apply lookup_replicate_2|by apply lookup_seq_lt].
Qed.

Lemma block_end_le_total (ntpb : list nat) (b nt : nat) :
  ntpb !! b = Some nt → block_start ntpb b + nt ≤ sum_list ntpb.
Proof.
  intros Hb. rewrite <- (block_start_S ntpb b nt Hb).
  unfold block_start. rewrite <- (take_drop (S b) ntpb) at 2.
  rewrite sum_list_with_app. lia.
Qed.

(** X4: after [reset], with a creator that respects the requested lengths,
    trial [j] of block [b] holds, in all the per-trial arrays, what belongs
    to that block: the [j]-th stimulus, side and strength that the creator
    returned on its call number [b], made with the block's length and the
    bias vector of the block's preferred side, together with that side's
    sign and the block number [b + 1]. *)
Theorem reset_timeline_blocks (task : ReversalLearningTask) (rnd : Randomness)
    (ep : Episode) (o : StepOutput) (b nt j : nat) :
  reset task rnd = Ok (ep, o) →
  creator_lengths (stimulus_creator task) →
  num_trials_per_block ep !! b = Some nt → j < nt →
  let i := block_start (num_trials_per_block ep) b + j in
  let side := block_side (choice rnd) b in
  let output :=
    create_block_stimuli (stimulus_creator task) b nt (side_bias_probs task side) in
  i < total_num_trials ep
  ∧ stimuli ep !! i = sampled_stimuli output !! j
  ∧ stimuli_sides ep !! i = sampled_sides output !! j
  ∧ stimuli_strengths ep !! i = sampled_strengths output !! j
  ∧ stimuli_preferred_sides ep !! i = Some (side_sign side)
  ∧ stimuli_block_number ep !! i = Some (S b)
  ∧ trial_num_within_block ep !! i = Some (S j).
Proof.
  intros H Hlen Hb Hj i side output.
  destruct (reset_block_lookups task rnd ep o b nt j H Hb Hj) as (Hp & Hn & Ht).
  subst i side output. reset_inv H. rewrite Hntpb in *.
  set (ntpb := clamp <$> _) in *.
  split.
  { rewrite Htot. pose proof (block_end_le_total ntpb b nt Hb). lia. }
  split; [rewrite Hstim|split; [rewrite Hsides|split; [rewrite Hstr|done]]].
  - apply (segments_lookup (λ b nt, sampled_stimuli (block_output task 0 (choice rnd) b nt)));
      [|done..]. intros b' nt' _. apply (Hlen (0 + b') nt').
  - apply (segments_lookup (λ b nt, sampled_sides (block_output task 0 (choice rnd) b nt)));
      [|done..]. intros b' nt' _. apply (Hlen (0 + b') nt').
  - apply (segments_lookup (λ b nt, sampled_strengths (block_output task 0 (choice rnd) b nt)));
      [|done..]. intros b' nt' _. apply (Hlen (0 + b') nt').
Qed.

Lemma reset_timeline_blocks_witness :
  reset three_blocks_task three_blocks_rnd = Ok (three_blocks_episode, mock_first)
  ∧ creator_lengths (stimulus_creator three_blocks_task)
  ∧ num_trials_per_block three_blocks_episode !! 2 = Some 100
  ∧ 7 < 100
  ∧ stimuli_sides three_blocks_episode !! 87 = Some 1%Z
  ∧ stimuli_preferred_sides three_blocks_episode !! 87 = Some fpos_one
  ∧ stimuli_block_number three_blocks_episode !! 87 = Some 3.
Proof.
  assert (Hreset : reset three_blocks_task three_blocks_rnd
                   = Ok (three_blocks_episode, mock_first))
    by (vm_compute; reflexivity).
  assert (Hb : num_trials_per_block three_blocks_episode !! 2 = Some 100)
    by (vm_compute; reflexivity).
  assert (Hj : 7 < 100) by lia.
  split; [exact Hreset|]. split; [exact mock_creator_lengths|].
  split; [exact Hb|]. split; [exact Hj|].
  destruct (reset_timeline_blocks three_blocks_task three_blocks_rnd
              three_blocks_episode mock_first 2 100 7
              Hreset mock_creator_lengths Hb Hj)
    as (_ & _ & Hsd & _ & Hpf & Hbn & _).
  split; [exact Hsd|]. split; [exact Hpf|exact Hbn].
Defined.

(** X5: after [reset], the block number and the trial number stored for a
    trial give back its position: a trial with block number [bn] and trial
    number [tn] is the trial [tn - 1] of block [bn - 1], and [tn] does not
    exceed that block's length.  Both numbers are stored for every trial. *)
Theorem reset_position_round_trip (task : ReversalLearningTask) (rnd : Randomness)
    (ep : Episode) (o : StepOutput) (i : nat) :
  reset task rnd = Ok (ep, o) →
  i < total_num_trials ep →
  ∃ bn tn nt,
    stimuli_block_number ep !! i = Some bn
    ∧ trial_num_within_block ep !! i = Some tn
    ∧ 1 ≤ bn ≤ num_blocks task
    ∧ num_trials_per_block ep !! (bn - 1) = Some nt
    ∧ 1 ≤ tn ≤ nt
    ∧ i = block_start (num_trials_per_block ep) (bn - 1) + (tn - 1).
Proof.
  intros H Hi.
  pose proof (reset_block_range task rnd ep o) as Hrange.
  specialize (λ b nt, Hrange b nt H).
  pose proof (reset_block_lookups task rnd ep o) as Hlook.
  specialize (λ b nt j, Hlook b nt j H). cbv zeta in Hlook.
  reset_inv H. rewrite Hntpb in *.
  set (ntpb := clamp <$> _) in *.
  destruct (lookup_lt_is_Some_2 (trial_num_within_block ep) i) as [tn Htni].
  { rewrite Htnwb, length_join, <- list_fmap_compose.
    replace (sum_list (length ∘ (λ nt, seq 1 nt) <$> ntpb)) with (sum_list ntpb);
      [lia|].
    f_equal. rewrite <- (list_fmap_id ntpb) at 1.
    apply list_fmap_ext. intros k nt _. simpl. by rewrite length_seq. }
  assert (Himap : (λ nt, seq 1 nt) <$> ntpb = imap (λ _ nt, seq 1 nt) ntpb).
  { apply list_eq. intros k. by rewrite list_lookup_fmap, list_lookup_imap. }
  pose proof Htni as Hinv. rewrite Htnwb, Himap in Hinv.
  apply segments_lookup_inv in Hinv; [|intros b' nt' _; apply length_seq].
  destruct Hinv as (b & nt & j & Hb & Hj & -> & Hseq).
  apply lookup_seq in Hseq as [-> _].
  destruct (Hrange b nt Hb) as [Hbl _].
  destruct (Hlook b nt j Hb Hj) as (_ & Hn & _).
  exists (S b), (1 + j), nt. simpl. rewrite !Nat.sub_0_r.
  split; [done|]. split; [exact Htni|]. split; [lia|].
  split; [done|]. split; [lia|done].
Qed.

Lemma reset_position_round_trip_witness :
  reset three_blocks_task three_blocks_rnd = Ok (three_blocks_episode, mock_first)
  ∧ 79 < total_num_trials three_blocks_episode
  ∧ ∃ bn tn nt,
      stimuli_block_number three_blocks_episode !! 79 = Some bn
      ∧ trial_num_within_block three_blocks_episode !! 79 = Some tn
      ∧ 1 ≤ bn ≤ num_blocks three_blocks_task
      ∧ num_trials_per_block three_blocks_episode !! (bn - 1) = Some nt
      ∧ 1 ≤ tn ≤ nt
      ∧ 79 = block_start (num_trials_per_block three_blocks_episode) (bn - 1)
             + (tn - 1).
Proof.
  assert (Hreset : reset three_blocks_task three_blocks_rnd
                   = Ok (three_blocks_episode, mock_first))
    by (vm_compute; reflexivity).
  assert (Hi : 79 < total_num_trials three_blocks_episode) by (vm_compute; lia).
  split; [exact Hreset|]. split; [exact Hi|].
  exact (reset_position_round_trip three_blocks_task three_blocks_rnd
           three_blocks_episode mock_first 79 Hreset Hi).
Defined.

(** * Further properties of [step] *)

(** X7: a call of [step] that returns shows the trial the cursor has moved
    to: the stimulus is that trial's stimulus as a single row, and the info
    payload holds that trial's side and strength. *)
Theorem step_observation (a : Action) (h : Hidden) (ep ep' : Episode) (o : StepOutput) :
  step a h ep = (ep', Ok o) →
  current_trial_idx ep' = current_trial_idx ep + 1
  ∧ ∃ x sd st,
      stimuli ep' !! current_trial_idx ep' = Some x
      ∧ stimuli_sides ep' !! current_trial_idx ep' = Some sd
      ∧ stimuli_strengths ep' !! current_trial_idx ep' = Some st
      ∧ stimulus o = [x]
      ∧ info o = Some {| stimulus_side := sd; stimulus_strength := st |}.
Proof.
  intros H.
  destruct (stimuli_sides ep !! current_trial_idx ep) as [side|] eqn:Hside;
    [|by rewrite step_beyond in H].
  destruct (NLLLoss (encode_target side) a) as [loss|e] eqn:Hloss;
    [|by rewrite (step_bad_target a h ep side e) in H].
  destruct (decide (current_trial_idx ep < length (rewards ep))) as [Hr|Hr];
    [destruct (decide (current_trial_idx ep < length (actions ep))) as [Ha|Ha]|].
  - rewrite (step_unfold a h ep side loss) in H by done.
    injection H as <- H. unfold getitem, mbind, result_bind in H. simpl in H.
    destruct (stimuli ep !! (current_trial_idx ep + 1)) as [x|] eqn:Hx; [|done].
    destruct (stimuli_sides ep !! (current_trial_idx ep + 1)) as [y|] eqn:Hy; [|done].
    destruct (stimuli_strengths ep !! (current_trial_idx ep + 1)) as [z|] eqn:Hz;
      [|done].
    injection H as <-. simpl. split; [done|]. exists x, y, z. by rewrite Hx, Hy, Hz.
  - exfalso. revert H.
    unfold step, mbind, M_bind, result_bind, gets, lift, modify, getitem, setitem.
    simpl. rewrite Hside, Hloss. simpl.
    rewrite decide_True by done. simpl. by rewrite decide_False by done.
  - exfalso. revert H.
    unfold step, mbind, M_bind, result_bind, gets, lift, modify, getitem, setitem.
    simpl. rewrite Hside, Hloss. simpl. by rewrite decide_False by done.
Qed.

Lemma step_observation_witness :
  step (log_0_1, log_0_9) [] mock_episode
  = ((step (log_0_1, log_0_9) [] mock_episode).1,
     Ok {| stimulus := [[fpos_one; fzero]];
           reward := log_0_9;
           info := Some {| stimulus_side := 1; stimulus_strength := fpos_one |};
           done := false |})
  ∧ current_trial_idx (step (log_0_1, log_0_9) [] mock_episode).1
    = current_trial_idx mock_episode + 1.
Proof.
  assert (Hstep : step (log_0_1, log_0_9) [] mock_episode
    = ((step (log_0_1, log_0_9) [] mock_episode).1,
       Ok {| stimulus := [[fpos_one; fzero]];
             reward := log_0_9;
             info := Some {| stimulus_side := 1; stimulus_strength := fpos_one |};
             done := false |})) by (vm_compute; reflexivity).
  split; [exact Hstep|].
  exact (proj1 (step_observation _ _ _ _ _ Hstep)).
Defined.

(** A call on an exhausted episode, and any run of such calls, changes
    nothing. *)
Lemma steps_exhausted (inputs : list (Action * Hidden)) (ep : Episode) :
  stimuli_sides ep !! current_trial_idx ep = None →
  steps inputs ep
  = (ep, replicate (length inputs)
           (Raise (IndexError f_stimuli_sides (current_trial_idx ep)))).
Proof.
  intros Hnone. induction inputs as [|[a h] inputs IH]; simpl; [done|].
  by rewrite step_beyond, IH.
Qed.

(** A run of calls of any length, from a cursor inside the episode. *)
Lemma steps_any (inputs : list (Action * Hidden)) (ep : Episode) :
  wf ep → Forall signed (stimuli_sides ep) →
  current_trial_idx ep ≤ total_num_trials ep →
  let ep' := (steps inputs ep).1 in
  let c := current_trial_idx ep in
  wf ep'
  ∧ same_timeline ep ep'
  ∧ current_trial_idx ep' = (c + length inputs) `min` total_num_trials ep
  ∧ length (model_hidden_states ep')
    = length (model_hidden_states ep) + (current_trial_idx ep' - c)
  ∧ (∀ j, j < c ∨ c + length inputs ≤ j →
       rewards ep' !! j = rewards ep !! j ∧ actions ep' !! j = actions ep !! j).
Proof.
  revert ep. induction inputs as [|[a h] inputs IH]; intros ep Hwf Hs Hle; simpl.
  - repeat split; try done; try apply Hwf; lia.
  - destruct (decide (current_trial_idx ep < total_num_trials ep)) as [Hlt|Hge].
    + destruct (step_signed a h ep Hwf Hs Hlt) as (side & Hside & Hsg & Hep1 & _).
      destruct (step a h ep) as [ep1 r] eqn:E. simpl in Hep1. subst ep1.
      specialize (IH (recorded a h (reward_of (component a (encode_target side))) ep)
                    (recorded_wf _ _ _ _ Hwf) Hs).
      destruct (steps inputs (recorded a h (reward_of (component a (encode_target side))) ep))
        as [ep2 rs] eqn:E2.
      simpl in IH. specialize (IH ltac:(lia)).
      destruct IH as (Hwf2 & Hsame & Hcur & Hhid & Hfr). simpl.
      split; [done|]. split.
      { eapply same_timeline_trans; [apply recorded_same_timeline|exact Hsame]. }
      split; [lia|]. split; [rewrite Hhid, length_app; simpl; lia|].
      intros j Hj. destruct (Hfr j ltac:(lia)) as [-> ->].
      by rewrite !list_lookup_insert_ne by lia.
    + assert (Hnone : stimuli_sides ep !! current_trial_idx ep = None).
      { apply lookup_ge_None. rewrite (wf_sides _ Hwf). lia. }
      rewrite step_beyond by done. rewrite steps_exhausted by done. simpl.
      repeat split; try done; try apply Hwf; lia.
Qed.

(** X8: on a well-formed episode whose sides are -1 or +1, whatever the
    number of calls of [step], the cursor never passes [total_num_trials]:
    after [k] calls from cursor [c] it is [min (c + k) total_num_trials],
    one snapshot is stored per trial gone through, and the timeline is
    unchanged.  Once the cursor is at [total_num_trials] every further call
    raises the index error of the first read and leaves the episode as it
    is, so that only [reset] starts a new episode. *)
Theorem step_cursor_bounded (inputs : list (Action * Hidden)) (ep : Episode) :
  wf ep → Forall signed (stimuli_sides ep) →
  current_trial_idx ep ≤ total_num_trials ep →
  let ep' := (steps inputs ep).1 in
  wf ep'
  ∧ same_timeline ep ep'
  ∧ current_trial_idx ep ≤ current_trial_idx ep' ≤ total_num_trials ep'
  ∧ current_trial_idx ep'
    = (current_trial_idx ep + length inputs) `min` total_num_trials ep
  ∧ length (model_hidden_states ep')
    = length (model_hidden_states ep) + (current_trial_idx ep' - current_trial_idx ep)
  ∧ (current_trial_idx ep = total_num_trials ep →
     steps inputs ep
     = (ep, replicate (length inputs)
              (Raise (IndexError f_stimuli_sides (total_num_trials ep))))).
Proof.
  intros Hwf Hs Hle ep'.
  destruct (steps_any inputs ep Hwf Hs Hle) as (Hwf' & Hsame & Hcur & Hhid & _).
  fold ep' in Hwf', Hsame, Hcur, Hhid.
  pose proof Hsame as (_ & _ & _ & _ & _ & _ & _ & Htot).
  split; [done|]. split; [done|]. split; [lia|]. split; [done|].
  split; [done|].
  intros Heq. rewrite steps_exhausted; [by rewrite Heq|].
  apply lookup_ge_None. rewrite (wf_sides _ Hwf). lia.
Qed.

Lemma step_cursor_bounded_witness :
  wf mock_episode
  ∧ Forall signed (stimuli_sides mock_episode)
  ∧ current_trial_idx mock_episode ≤ total_num_trials mock_episode
  ∧ current_trial_idx
      (steps (replicate 25 ((log_0_1, log_0_9), [])) mock_episode).1 = 20
  ∧ length (model_hidden_states
              (steps (replicate 25 ((log_0_1, log_0_9), [])) mock_episode).1) = 20.
Proof.
  assert (Hwf : wf mock_episode) by (split; vm_compute; reflexivity).
  assert (Hsigned : Forall signed (stimuli_sides mock_episode)).
  { change (stimuli_sides mock_episode) with (replicate 20 1%Z).
    apply Forall_replicate. right. reflexivity. }
  assert (Hle : current_trial_idx mock_episode ≤ total_num_trials mock_episode)
    by (vm_compute; lia).
  split; [exact Hwf|]. split; [exact Hsigned|]. split; [exact Hle|].
  destruct (step_cursor_bounded (replicate 25 ((log_0_1, log_0_9), [])) mock_episode
              Hwf Hsigned Hle) as (_ & _ & _ & Hcur & Hhid & _).
  split; [exact Hcur|]. rewrite Hhid, Hcur. vm_compute. reflexivity.
Defined.

(** X9: after [reset] and any number of calls of [step], the records of the
    trials not yet gone through are still the zeros that [reset] stored: for
    [k] calls, [rewards[j]] is 0 and [actions[j]] is [0, 0] for every trial
    [j] from [k] on. *)
Theorem step_unreached_records_zero (task : ReversalLearningTask) (rnd : Randomness)
    (ep : Episode) (obs : StepOutput) (inputs : list (Action * Hidden)) (j : nat) :
  reset task rnd = Ok (ep, obs) →
  creator_lengths (stimulus_creator task) →
  Forall signed (stimuli_sides ep) →
  length inputs ≤ j < total_num_trials ep →
  rewards (steps inputs ep).1 !! j = Some fzero
  ∧ actions (steps inputs ep).1 !! j = Some (fzero, fzero).
Proof.
  intros Hreset Hlen Hs Hj.
  destruct (reset_wf task rnd ep obs Hreset Hlen) as (Hwf & Hcur0 & _).
  destruct (steps_any inputs ep Hwf Hs ltac:(lia)) as (_ & _ & _ & _ & Hfr).
  destruct (Hfr j ltac:(lia)) as [Hr Ha].
  reset_inv Hreset. rewrite Hrew in Hr. rewrite Hact in Ha.
  split; [etrans; [exact Hr|]|etrans; [exact Ha|]];
    apply lookup_replicate_2; lia.
Qed.

Lemma step_unreached_records_zero_witness :
  reset mock_task mock_rnd = Ok (mock_episode, mock_first)
  ∧ creator_lengths (stimulus_creator mock_task)
  ∧ Forall signed (stimuli_sides mock_episode)
  ∧ length (replicate 5 ((log_0_1, log_0_9), @nil scalar)) ≤ 5
    < total_num_trials mock_episode
  ∧ rewards (steps (replicate 5 ((log_0_1, log_0_9), [])) mock_episode).1 !! 5
    = Some fzero
  ∧ actions (steps (replicate 5 ((log_0_1, log_0_9), [])) mock_episode).1 !! 5
    = Some (fzero, fzero).
Proof.
  assert (Hreset : reset mock_task mock_rnd = Ok (mock_episode, mock_first))
    by (vm_compute; reflexivity).
  assert (Hsigned : Forall signed (stimuli_sides mock_episode)).
  { change (stimuli_sides mock_episode) with (replicate 20 1%Z).
    apply Forall_replicate. right. reflexivity. }
  assert (Hj : length (replicate 5 ((log_0_1, log_0_9), @nil scalar)) ≤ 5
               < total_num_trials mock_episode) by (vm_compute; lia).
  split; [exact Hreset|]. split; [exact mock_creator_lengths|].
  split; [exact Hsigned|]. split; [exact Hj|].
  exact (step_unreached_records_zero mock_task mock_rnd mock_episode mock_first
           (replicate 5 ((log_0_1, log_0_9), [])) 5
           Hreset mock_creator_lengths Hsigned Hj).
Defined.

(** * Further properties of the worlds *)

(** What the creator returned for a block, found again in the timeline. *)
Lemma reset_creator_lookups (task : ReversalLearningTask) (rnd : Randomness)
    (ep : Episode) (o : StepOutput) (b nt j : nat) :
  reset task rnd = Ok (ep, o) →
  creator_lengths (stimulus_creator task) →
  num_trials_per_block ep !! b = Some nt → j < nt →
  let i := block_start (num_trials_per_block ep) b + j in
  let output :=
    create_block_stimuli (stimulus_creator task) b nt
      (side_bias_probs task (block_side (choice rnd) b)) in
  stimuli ep !! i = sampled_stimuli output !! j
  ∧ stimuli_sides ep !! i = sampled_sides output !! j
  ∧ stimuli_strengths ep !! i = sampled_strengths output !! j.
Proof.
  intros H Hlen Hb Hj i output. subst i output. reset_inv H.
  rewrite Hntpb in *. rewrite Hstim, Hsides, Hstr.
  set (ntpb := clamp <$> _) in *.
  split; [|split].
  - apply (segments_lookup (λ b nt, sampled_stimuli (block_output task 0 (choice rnd) b nt)));
      [|done..]. intros b' nt' _. apply (Hlen (0 + b') nt').
  - apply (segments_lookup (λ b nt, sampled_sides (block_output task 0 (choice rnd) b nt)));
      [|done..]. intros b' nt' _. apply (Hlen (0 + b') nt').
  - apply (segments_lookup (λ b nt, sampled_strengths (block_output task 0 (choice rnd) b nt)));
      [|done..]. intros b' nt' _. apply (Hlen (0 + b') nt').
Qed.

(** X10: [create_training_choice_world] returns [batch_size] tasks.  After
    [reset] of any of them, with a creator that respects the requested
    lengths, there are 10 blocks, and the stimuli, sides and strengths of
    every block are what the creator returned when asked, on its call for
    that block, for the block's length with the bias vector [0.5, 0.5]:
    the same request whichever side the block prefers, while the
    preferred-side sign of the block still follows the alternation. *)
Theorem training_world_requests (creator : StimulusCreator) (batch_size : nat)
    (task : ReversalLearningTask) (rnd : Randomness)
    (ep : Episode) (o : StepOutput) (b nt j : nat) :
  task ∈ create_training_choice_world creator batch_size →
  reset task rnd = Ok (ep, o) →
  creator_lengths creator →
  num_trials_per_block ep !! b = Some nt → j < nt →
  let i := block_start (num_trials_per_block ep) b + j in
  let output := create_block_stimuli creator b nt [0.5; 0.5]%Q in
  length (create_training_choice_world creator batch_size) = batch_size
  ∧ length (num_trials_per_block ep) = 10
  ∧ stimuli ep !! i = sampled_stimuli output !! j
  ∧ stimuli_sides ep !! i = sampled_sides output !! j
  ∧ stimuli_strengths ep !! i = sampled_strengths output !! j
  ∧ stimuli_preferred_sides ep !! i = Some (side_sign (block_side (choice rnd) b)).
Proof.
  intros Hin H Hlen Hb Hj i output.
  unfold create_training_choice_world in *.
  apply elem_of_replicate in Hin as [-> _].
  split; [apply length_replicate|].
  destruct (reset_creator_lookups _ rnd ep o b nt j H Hlen Hb Hj) as (H1 & H2 & H3).
  destruct (reset_block_lookups _ rnd ep o b nt j H Hb Hj) as (Hp & _).
  split.
  { reset_inv H. by rewrite Hntpb, drawn_lengths_length. }
  assert (Hv : side_bias_probs (training_choice_world creator)
                 (block_side (choice rnd) b) = [0.5; 0.5]%Q).
  { by destruct (block_side (choice rnd) b). }
  cbv zeta in H1, H2, H3.
  change (stimulus_creator (training_choice_world creator)) with creator
    in H1, H2, H3.
  rewrite Hv in H1, H2, H3. done.
Qed.

Lemma training_world_requests_witness :
  training_choice_world mock_creator ∈ create_training_choice_world mock_creator 2
  ∧ creator_lengths mock_creator
  ∧ ∃ ep o,
      reset (training_choice_world mock_creator) mock_rnd = Ok (ep, o)
      ∧ num_trials_per_block ep !! 4 = Some 20
      ∧ 7 < 20
      ∧ length (num_trials_per_block ep) = 10
      ∧ stimuli_sides ep !! 87 = Some 1%Z.
Proof.
  assert (Hin : training_choice_world mock_creator
                ∈ create_training_choice_world mock_creator 2).
  { vm_compute. apply list_elem_of_here. }
  split; [exact Hin|]. split; [exact mock_creator_lengths|].
  destruct (reset (training_choice_world mock_creator) mock_rnd)
    as [[ep o]|e] eqn:H; [|vm_compute in H; discriminate H].
  assert (Hb : num_trials_per_block ep !! 4 = Some 20).
  { vm_compute in H. injection H as <- _. reflexivity. }
  assert (Hj : 7 < 20) by lia.
  exists ep, o. split; [reflexivity|]. split; [exact Hb|]. split; [exact Hj|].
  destruct (training_world_requests mock_creator 2
              (training_choice_world mock_creator) mock_rnd ep o 4 20 7
              Hin H mock_creator_lengths Hb Hj) as (_ & Hten & _ & Hsd & _).
  split; [exact Hten|].
  etransitivity; [|exact Hsd].
  f_equal. vm_compute in H. injection H as <- _. reflexivity.
Defined.

(** X11: in the biased choice world, after [reset] with a creator that
    respects the requested lengths, the trials of a block are what the
    creator returned when asked with the bias vector of the block's
    preferred side, [0.8, 0.2] for a block marked -1 (left) and [0.2, 0.8]
    for a block marked +1 (right), and the trials of the next block are
    what it returned when asked with that vector's two entries
    exchanged. *)
Theorem biased_world_requests (creator : StimulusCreator) (rnd : Randomness)
    (ep : Episode) (o : StepOutput) (b nt nt' j j' : nat) :
  reset (biased_choice_world creator) rnd = Ok (ep, o) →
  creator_lengths creator →
  num_trials_per_block ep !! b = Some nt →
  num_trials_per_block ep !! S b = Some nt' →
  j < nt → j' < nt' →
  let i := block_start (num_trials_per_block ep) b + j in
  let i' := block_start (num_trials_per_block ep) (S b) + j' in
  ∃ v,
    ((stimuli_preferred_sides ep !! i = Some fneg_one ∧ v = [0.8; 0.2]%Q)
     ∨ (stimuli_preferred_sides ep !! i = Some fpos_one ∧ v = [0.2; 0.8]%Q))
    ∧ stimuli ep !! i
      = sampled_stimuli (create_block_stimuli creator b nt v) !! j
    ∧ stimuli_sides ep !! i
      = sampled_sides (create_block_stimuli creator b nt v) !! j
    ∧ stimuli_strengths ep !! i
      = sampled_strengths (create_block_stimuli creator b nt v) !! j
    ∧ stimuli ep !! i'
      = sampled_stimuli (create_block_stimuli creator (S b) nt' (reverse v)) !! j'
    ∧ stimuli_sides ep !! i'
      = sampled_sides (create_block_stimuli creator (S b) nt' (reverse v)) !! j'
    ∧ stimuli_strengths ep !! i'
      = sampled_strengths (create_block_stimuli creator (S b) nt' (reverse v)) !! j'.
Proof.
  intros H Hlen Hb Hb' Hj Hj' i i'.
  destruct (reset_creator_lookups _ rnd ep o b nt j H Hlen Hb Hj) as (H1 & H2 & H3).
  destruct (reset_creator_lookups _ rnd ep o (S b) nt' j' H Hlen Hb' Hj')
    as (H1' & H2' & H3').
  destruct (reset_block_lookups _ rnd ep o b nt j H Hb Hj) as (Hp & _).
  rewrite block_side_S in H1', H2', H3'.
  exists (side_bias_probs (biased_choice_world creator) (block_side (choice rnd) b)).
  destruct (block_side (choice rnd) b); simpl in *.
  - split; [by left|]. done.
  - split; [by right|]. done.
Qed.

Lemma biased_world_requests_witness :
  creator_lengths mock_creator
  ∧ ∃ ep o,
      reset (biased_choice_world mock_creator) mock_rnd = Ok (ep, o)
      ∧ num_trials_per_block ep !! 0 = Some 20
      ∧ num_trials_per_block ep !! 1 = Some 20
      ∧ 3 < 20 ∧ 5 < 20
      ∧ stimuli_preferred_sides ep !! 3 = Some fneg_one
      ∧ stimuli_sides ep !! 25
        = sampled_sides (create_block_stimuli mock_creator 1 20 [0.2; 0.8]%Q) !! 5.
Proof.
  split; [exact mock_creator_lengths|].
  destruct (reset (biased_choice_world mock_creator) mock_rnd)
    as [[ep o]|e] eqn:H; [|vm_compute in H; discriminate H].
  assert (Hb : num_trials_per_block ep !! 0 = Some 20).
  { vm_compute in H. injection H as <- _. reflexivity. }
  assert (Hb' : num_trials_per_block ep !! 1 = Some 20).
  { vm_compute in H. injection H as <- _. reflexivity. }
  assert (Hj : 3 < 20) by lia. assert (Hj' : 5 < 20) by lia.
  exists ep, o. split; [reflexivity|]. split; [exact Hb|]. split; [exact Hb'|].
  split; [exact Hj|]. split; [exact Hj'|].
  destruct (biased_world_requests mock_creator mock_rnd ep o 0 20 20 3 5
              H mock_creator_lengths Hb Hb' Hj Hj')
    as (v & Hv & _ & _ & _ & _ & Hsd' & _).
  assert (Hstart0 : block_start (num_trials_per_block ep) 0 + 3 = 3) by reflexivity.
  assert (Hstart1 : block_start (num_trials_per_block ep) 1 + 5 = 25).
  { vm_compute in H. injection H as <- _. reflexivity. }
  rewrite Hstart0 in Hv. rewrite Hstart1 in Hsd'.
  destruct Hv as [[Hp ->]|[Hp ->]].
  - split; [exact Hp|exact Hsd'].
  - exfalso. vm_compute in H. injection H as <- _. discriminate Hp.
Defined.
